(** * Criteo preprocessing task (src/preprocessing/task.py)

    A shallow embedding of the command-line ETL driver: path resolution
    against the object store, shuffle-name resolution, the fixed Criteo
    schema and workflow, cluster sizing, argument parsing and the task
    dispatch.  Calls into the external libraries (fsspec, nvtabular,
    dask_cuda) are recorded as events of a trace; the object store and the
    device-memory query are read from a [World]. *)

From Stdlib Require Import ZArith List String Ascii Bool Lia.
From Stdlib Require Import Floats.SpecFloat DecimalString.
From stdpp Require Import gmap strings list.

Local Open Scope string_scope.
Local Open Scope Z_scope.

(** ** Python values used by the program *)

Module Py.

(** Exceptions, by the classes the program distinguishes.  [OSError]
    stands for every [OSError] subclass other than [FileNotFoundError]. *)
Inductive Exn :=
| FileNotFoundError (msg : string)
| OSError (msg : string)
| AttributeError (msg : string)
| TypeError (msg : string)
| ValueError (msg : string)
| OverflowError (msg : string).

Inductive result (A : Type) :=
| Ok (a : A)
| Raise (e : Exn).
Arguments Ok {A} a.
Arguments Raise {A} e.

(** [str(e)] of an exception built from one message. *)
Definition str_exn (e : Exn) : string :=
  match e with
  | FileNotFoundError m | OSError m | AttributeError m
  | TypeError m | ValueError m | OverflowError m => m
  end.

(** [isinstance(e, OSError)]: [FileNotFoundError] derives from [OSError]. *)
Definition is_OSError (e : Exn) : bool :=
  match e with
  | FileNotFoundError _ | OSError _ => true
  | _ => false
  end.

(** [str(x)] for an integer. *)
Definition str (x : Z) : string := NilEmpty.string_of_int (Z.to_int x).

(** [range(a, b)]. *)
Definition range (a b : Z) : list Z :=
  map (fun k => a + Z.of_nat k) (seq 0 (Z.to_nat (b - a))).

(** [s.startswith('/')] and [s.endswith('/')]. *)
Definition startswith_sep (s : string) : bool :=
  match s with
  | String c _ => Ascii.eqb c "/"
  | EmptyString => false
  end.

Fixpoint endswith_sep (s : string) : bool :=
  match s with
  | EmptyString => false
  | String c EmptyString => Ascii.eqb c "/"
  | String _ rest => endswith_sep rest
  end.

(** [os.path.join(a, b)] of [posixpath], for two components. *)
Definition os_path_join (a b : string) : string :=
  if startswith_sep b then b
  else if (String.eqb a "" || endswith_sep a)%bool then a +:+ b
  else a +:+ "/" +:+ b.

(** *** Floats: IEEE 754 binary64, round to nearest even *)

Definition float := spec_float.
Definition prec : Z := 53.
Definition emax : Z := 1024.

(** [float(n)] for an integer; Python raises when the integer is beyond
    the largest finite double. *)
Definition float_of_int (n : Z) : result float :=
  match binary_normalize prec emax n 0 false with
  | S754_infinity _ | S754_nan =>
      Raise (OverflowError "int too large to convert to float")
  | f => Ok f
  end.

Definition fmul (x y : float) : float := SFmul prec emax x y.
Definition fsub (x y : float) : float := SFsub prec emax x y.

(** The double nearest to the decimal literal [n / d] (both exactly
    representable): what the Python parser does with [0.10], [0.60]. *)
Definition float_lit (n d : Z) : float :=
  SFdiv prec emax (binary_normalize prec emax n 0 false)
                  (binary_normalize prec emax d 0 false).

(** [x * n] for a float [x] and an integer [n]. *)
Definition fmul_int (x : float) (n : Z) : result float :=
  match float_of_int n with
  | Ok y => Ok (fmul x y)
  | Raise e => Raise e
  end.

(** The signed integer mantissa of a finite float. *)
Definition signed_mantissa (s : bool) (m : positive) : Z :=
  if s then Z.neg m else Z.pos m.

(** [int(x)] for a float: truncation toward zero; NaN and the infinities
    raise. *)
Definition int_of_float (x : float) : result Z :=
  match x with
  | S754_nan => Raise (ValueError "cannot convert float NaN to integer")
  | S754_infinity _ =>
      Raise (OverflowError "cannot convert float infinity to integer")
  | S754_zero _ => Ok 0
  | S754_finite s m e =>
      if 0 <=? e then Ok (signed_mantissa s m * 2 ^ e)
      else Ok (Z.quot (signed_mantissa s m) (2 ^ (- e)))
  end.

(** The mathematical floor of a float's value, where it has one. *)
Definition floor_of_float (x : float) : option Z :=
  match x with
  | S754_nan | S754_infinity _ => None
  | S754_zero _ => Some 0
  | S754_finite s m e =>
      if 0 <=? e then Some (signed_mantissa s m * 2 ^ e)
      else Some (signed_mantissa s m / 2 ^ (- e))
  end.

(** A float that is finite and not below zero. *)
Definition finite_nonneg (x : float) : bool :=
  match x with
  | S754_zero _ => true
  | S754_finite s _ _ => negb s
  | _ => false
  end.

End Py.
Import Py.

(** ** Library objects

    The handles of the external libraries, reduced to the arguments this
    program passes to them. *)

(** [nvtabular.io.shuffle.Shuffle], an [enum.Enum]. *)
Inductive Shuffle := PER_PARTITION | PER_WORKER | FULL.

(** What [getattr(Shuffle, name)] can yield: a member of the enum, or some
    other attribute of the class object ([__name__], [__doc__], ...), kept
    by its name. *)
Inductive ClassAttr :=
| Member (m : Shuffle)
| OtherAttr (name : string).

(** Column dtypes of the schema: [np.int32] and the marker ["hex"]. *)
Inductive Dtype := np_int32 | hex.

(** An insertion-ordered [dict] with string keys. *)
Definition dict (V : Type) := list (string * V).

(** [d[k] = v]: overwrite in place when the key exists, append otherwise. *)
Fixpoint dict_set {V} (d : dict V) (k : string) (v : V) : dict V :=
  match d with
  | [] => [(k, v)]
  | (k', v') :: rest =>
      if String.eqb k' k then (k', v) :: rest
      else (k', v') :: dict_set rest k v
  end.

Fixpoint dict_get {V} (d : dict V) (k : string) : option V :=
  match d with
  | [] => None
  | (k', v') :: rest => if String.eqb k' k then Some v' else dict_get rest k
  end.

(** [list(d.keys())]. *)
Definition keys {V} (d : dict V) : list string := map fst d.

(** [Client(LocalCUDACluster(...))], by the sizing arguments it was given. *)
Record Client := {
  cl_n_workers : option Z;
  cl_device_memory_limit : Z;
  cl_rmm_pool_size : Z;
  cl_memory_limit : Z
}.

(** Column operators of [nvtabular.ops]. *)
Inductive Op :=
| Categorify (max_size : Z)
| FillMissing
| Clip (min_value : Z)
| Normalize.

(** A column group: selected columns and the operators chained on them
    with [>>], first applied first. *)
Record ColumnGroup := {
  cg_columns : list string;
  cg_ops : list Op
}.

(** [names >> op] on a plain list of names, [group >> op] on a group. *)
Definition select (names : list string) : ColumnGroup :=
  {| cg_columns := names; cg_ops := [] |}.

Definition chain (g : ColumnGroup) (op : Op) : ColumnGroup :=
  {| cg_columns := cg_columns g; cg_ops := cg_ops g ++ [op] |}.

(** [nvt.Workflow]: the column groups added with [+], the client, and the
    files of the dataset it was fitted on (none before [fit]). *)
Record Workflow := {
  wf_features : list ColumnGroup;
  wf_client : Client;
  wf_fitted_on : option (list string)
}.

Inductive Engine := csv | parquet.

(** Keyword arguments of a CSV dataset. *)
Record CsvOptions := {
  csv_names : list string;
  csv_sep : option string;
  csv_dtypes : dict Dtype;
  csv_assume_missing : bool
}.

(** [nvt.Dataset]: a lazy handle on files.  [ds_applied] lists the
    workflows whose transformation the handle carries. *)
Record Dataset := {
  ds_path_or_source : list string;
  ds_engine : Engine;
  ds_csv : option CsvOptions;
  ds_part_mem_fraction : float;
  ds_client : Client;
  ds_applied : list Workflow
}.

(** [Workflow.transform(dataset)] of the library: it leaves its argument
    as it is and returns a new handle that carries the transformation. *)
Definition Workflow_transform (w : Workflow) (d : Dataset) : Dataset :=
  {| ds_path_or_source := ds_path_or_source d;
     ds_engine := ds_engine d;
     ds_csv := ds_csv d;
     ds_part_mem_fraction := ds_part_mem_fraction d;
     ds_client := ds_client d;
     ds_applied := ds_applied d ++ [w] |}.

(** [Workflow.fit(dataset)] of the library: updates the workflow in
    place with the statistics of the dataset. *)
Definition Workflow_fit (w : Workflow) (d : Dataset) : Workflow :=
  {| wf_features := wf_features w;
     wf_client := wf_client w;
     wf_fitted_on := Some (ds_path_or_source d) |}.

(** ** The world and the trace *)

(** What the program reads from outside: the object store behind
    [fsspec.filesystem('gs')], the class namespace of [Shuffle], the
    device-memory query and the clock ([clock k] is the k-th reading). *)
Record World := {
  isfile : string -> result bool;
  glob : string -> result (list string);
  shuffle_attr : string -> option ClassAttr;
  device_mem_size : Z;
  clock : nat -> float
}.

(** The value handed to [to_parquet(shuffle=...)]: [None] or whatever
    the attribute lookup produced. *)
Definition ShuffleArg := option ClassAttr.

(** Every call that leaves the program. *)
Inductive Event :=
| ELog (msg : string) (arg : option float)
| EPrint (msg : string)
| EIsFile (path : string)
| EGlob (pattern : string)
| EDeviceMemSize
| ECluster (c : Client)
| EDataset (d : Dataset)
| EToParquet (d : Dataset) (output_path : option string)
             (shuffle : ShuffleArg) (output_files : option (option Z))
| EFit (w : Workflow) (d : Dataset)
| ETransform (w : Workflow) (d : Dataset)
| ESaveWorkflow (w : Workflow) (path : option string)
| ELoadWorkflow (path : option string).

(** The mutable outside: the trace (oldest first), the workflows persisted
    by path, the number of clock readings so far. *)
Record Heap := {
  trace : list Event;
  wf_store : gmap string Workflow;
  ticks : nat
}.

Definition heap0 : Heap := {| trace := []; wf_store := ∅; ticks := 0 |}.

(** ** The monad of a Python function body

    [Proc L A]: a computation over the local variables [L] of the running
    function and the heap, returning [A] or raising.  Locals assigned
    before a [raise] stay assigned, as in Python. *)
Definition Proc (L A : Type) : Type := L -> Heap -> result A * L * Heap.

Definition ret {L A} (a : A) : Proc L A := fun l h => (Ok a, l, h).

Definition raise {L A} (e : Exn) : Proc L A := fun l h => (Raise e, l, h).

Definition bind {L A B} (c : Proc L A) (k : A -> Proc L B) : Proc L B :=
  fun l h =>
    match c l h with
    | (Ok a, l', h') => k a l' h'
    | (Raise e, l', h') => (Raise e, l', h')
    end.

Notation "x <- c ;; k" := (bind c (fun x => k))
  (at level 100, c at next level, right associativity).
Notation "c ;; k" := (bind c (fun _ => k))
  (at level 100, right associativity).

Definition get_local {L} : Proc L L := fun l h => (Ok l, l, h).
Definition set_local {L} (l' : L) : Proc L unit := fun _ h => (Ok tt, l', h).

(** The heap after some more events. *)
Definition add_events (h : Heap) (evs : list Event) : Heap :=
  {| trace := trace h ++ evs; wf_store := wf_store h; ticks := ticks h |}.

Definition emit {L} (ev : Event) : Proc L unit :=
  fun l h => (Ok tt, l, add_events h [ev]).

(** Lift a library result into the monad. *)
Definition lift {L A} (r : result A) : Proc L A :=
  match r with
  | Ok a => ret a
  | Raise e => raise e
  end.

(** [try: body except <handler>]: [handler e] is [None] when no clause
    matches [e], and the exception goes on. *)
Definition try_except {L A} (body : Proc L A)
    (handler : Exn -> option (Proc L A)) : Proc L A :=
  fun l h =>
    match body l h with
    | (Ok a, l', h') => (Ok a, l', h')
    | (Raise e, l', h') =>
        match handler e with
        | Some k => k l' h'
        | None => (Raise e, l', h')
        end
    end.

(** Calling a function: a fresh frame of locals, dropped on exit. *)
Definition call {L L' A} (f : Proc L' A) (frame : L') : Proc L A :=
  fun l h => let '(r, _, h') := f frame h in (r, l, h').

(** Control at the end of a loop body. *)
Inductive Ctl (R : Type) :=
| Continue
| Return (r : R).
Arguments Continue {R}.
Arguments Return {R} r.

(** [for x in xs: body]: [None] when the loop runs to its end, [Some r]
    when the body executed [return r]. *)
Fixpoint for_ {L X R} (xs : list X) (body : X -> Proc L (Ctl R))
    : Proc L (option R) :=
  match xs with
  | [] => ret None
  | x :: rest =>
      c <- body x ;;
      match c with
      | Continue => for_ rest body
      | Return r => ret (Some r)
      end
  end.

(** Run a top-level procedure (no locals) on a heap. *)
Definition run {A} (p : Proc unit A) (h : Heap) : result A * Heap :=
  let '(r, _, h') := p tt h in (r, h').

(** ** Parsed arguments *)

(** The [argparse.Namespace] of [parse_args]: a flag without default is
    [None] when it is omitted. *)
Module Namespace.
Record t := {
  task : option string;
  csv_data_path : option (list string);
  parquet_data_path : option string;
  output_path : option string;
  output_files : option Z;
  workflow_path : option string;
  n_workers : option Z;
  sep : option string;
  frac_size : float;
  memory_limit : Z;
  device_limit_frac : float;
  device_pool_frac : float
}.
End Namespace.

(** One flag given on the command line, with its value after the
    conversion of its [type=]. *)
Inductive Flag :=
| F_task (v : string)
| F_csv_data_path (v : list string)
| F_parquet_data_path (v : string)
| F_output_path (v : string)
| F_output_files (v : Z)
| F_workflow_path (v : string)
| F_n_workers (v : Z)
| F_sep (v : string)
| F_frac_size (v : float)
| F_memory_limit (v : Z)
| F_device_limit_frac (v : float)
| F_device_pool_frac (v : float).

(** The destination of a flag: its name without the dashes. *)
Definition dest (f : Flag) : string :=
  match f with
  | F_task _ => "task"
  | F_csv_data_path _ => "csv_data_path"
  | F_parquet_data_path _ => "parquet_data_path"
  | F_output_path _ => "output_path"
  | F_output_files _ => "output_files"
  | F_workflow_path _ => "workflow_path"
  | F_n_workers _ => "n_workers"
  | F_sep _ => "sep"
  | F_frac_size _ => "frac_size"
  | F_memory_limit _ => "memory_limit"
  | F_device_limit_frac _ => "device_limit_frac"
  | F_device_pool_frac _ => "device_pool_frac"
  end.

(** The flag [d] does not occur on the command line. *)
Definition omitted (d : string) (argv : list Flag) : Prop :=
  Forall (fun f => dest f <> d) argv.

(** The namespace before any flag is read: the [default=] of every
    [add_argument], [None] where there is none. *)
Definition defaults : Namespace.t :=
  {| Namespace.task := None;
     Namespace.csv_data_path := None;
     Namespace.parquet_data_path := None;
     Namespace.output_path := None;
     Namespace.output_files := None;
     Namespace.workflow_path := None;
     Namespace.n_workers := None;
     Namespace.sep := None;
     Namespace.frac_size := float_lit 10 100;
     Namespace.memory_limit := 100000000000;
     Namespace.device_limit_frac := float_lit 60 100;
     Namespace.device_pool_frac := float_lit 90 100 |}.

(** The store action of one flag: its destination takes the value. *)
Definition store (ns : Namespace.t) (f : Flag) : Namespace.t :=
  let '(Namespace.Build_t a b c d e g h i j k l m) := ns in
  match f with
  | F_task v => Namespace.Build_t (Some v) b c d e g h i j k l m
  | F_csv_data_path v => Namespace.Build_t a (Some v) c d e g h i j k l m
  | F_parquet_data_path v => Namespace.Build_t a b (Some v) d e g h i j k l m
  | F_output_path v => Namespace.Build_t a b c (Some v) e g h i j k l m
  | F_output_files v => Namespace.Build_t a b c d (Some v) g h i j k l m
  | F_workflow_path v => Namespace.Build_t a b c d e (Some v) h i j k l m
  | F_n_workers v => Namespace.Build_t a b c d e g (Some v) i j k l m
  | F_sep v => Namespace.Build_t a b c d e g h (Some v) j k l m
  | F_frac_size v => Namespace.Build_t a b c d e g h i v k l m
  | F_memory_limit v => Namespace.Build_t a b c d e g h i j v l m
  | F_device_limit_frac v => Namespace.Build_t a b c d e g h i j k v m
  | F_device_pool_frac v => Namespace.Build_t a b c d e g h i j k l v
  end.

(** [parse_args()]: the flags of the command line are stored from left to
    right over the defaults. *)
Definition parse_args (argv : list Flag) : Namespace.t :=
  fold_left store argv defaults.

(** ** The Criteo schema and workflow *)

(** [get_criteo_col_dtypes()]. *)
Definition get_criteo_col_dtypes : dict Dtype :=
  let col_dtypes := [] in
  let col_dtypes := dict_set col_dtypes "label" np_int32 in
  let col_dtypes :=
    fold_left (fun d x => dict_set d x np_int32)
              (map (fun i => "I" +:+ str i) (range 1 14)) col_dtypes in
  let col_dtypes :=
    fold_left (fun d x => dict_set d x hex)
              (map (fun i => "C" +:+ str i) (range 1 27)) col_dtypes in
  col_dtypes.

(** [create_criteo_nvt_workflow(client)]. *)
Definition create_criteo_nvt_workflow (client : Client) : Workflow :=
  let cont_names := map (fun x => "I" +:+ str x) (range 1 14) in
  let cat_names := map (fun x => "C" +:+ str x) (range 1 27) in
  let num_buckets := 10000000 in
  let categorify_op := Categorify num_buckets in
  let cat_features := chain (select cat_names) categorify_op in
  let cont_features :=
    chain (chain (chain (select cont_names) FillMissing) (Clip 0)) Normalize in
  let features :=
    ([cat_features] ++ [cont_features] ++ [select ["label"]])%list in
  {| wf_features := features; wf_client := client; wf_fitted_on := None |}.

(** ** The task functions *)

Section Task.

Variable w : World.

(** Library calls, each recorded in the trace. *)

Definition logging_info {L} (msg : string) : Proc L unit :=
  emit (ELog msg None).

Definition print {L} (msg : string) : Proc L unit := emit (EPrint msg).

Definition fs_isfile {L} (path : string) : Proc L bool :=
  emit (EIsFile path) ;; lift (isfile w path).

Definition fs_glob {L} (pattern : string) : Proc L (list string) :=
  emit (EGlob pattern) ;; lift (glob w pattern).

(** [nvt.Dataset(...)]: the handle starts with no transformation. *)
Definition nvt_Dataset {L} (paths : list string) (engine : Engine)
    (opts : option CsvOptions) (frac : float) (client : Client)
    : Proc L Dataset :=
  let d := {| ds_path_or_source := paths; ds_engine := engine;
              ds_csv := opts; ds_part_mem_fraction := frac;
              ds_client := client; ds_applied := [] |} in
  emit (EDataset d) ;; ret d.

(** [getattr(Shuffle, name)]: a name that is not a string is a
    [TypeError], a string that names no attribute an [AttributeError]. *)
Definition getattr_Shuffle {L} (name : option string) : Proc L ClassAttr :=
  match name with
  | None => raise (TypeError "attribute name must be string")
  | Some s =>
      match shuffle_attr w s with
      | Some a => ret a
      | None => raise (AttributeError s)
      end
  end.

(** [dataset.to_parquet(...)]; on [None] the attribute is missing. *)
Definition to_parquet {L} (dataset : option Dataset)
    (output_path : option string) (shuffle : ShuffleArg)
    (output_files : option (option Z)) : Proc L unit :=
  match dataset with
  | None =>
      raise (AttributeError "'NoneType' object has no attribute 'to_parquet'")
  | Some d => emit (EToParquet d output_path shuffle output_files)
  end.

(** [valid_paths.append(x)] on the local list. *)
Definition valid_paths_append (x : string) : Proc (list string) unit :=
  valid_paths <- get_local ;; set_local (valid_paths ++ [x])%list.

(** The [try] statement in the loop of [create_csv_dataset]. *)
Definition resolve_path (rec_symbol path : string) : Proc (list string) unit :=
  try_except
    (b <- fs_isfile path ;;
     if b : bool then valid_paths_append path
     else
       let path := os_path_join path rec_symbol in
       items <- fs_glob path ;;
       for_ (R := unit) items (fun i =>
         b <- fs_isfile i ;;
         (if b : bool then valid_paths_append ("gs://" +:+ i) else ret tt) ;;
         ret Continue) ;;
       ret tt)
    (fun e =>
       match e with
       | FileNotFoundError _ =>
           Some (print (str_exn e) ;; print "Incorrect path: {path}.")
       | OSError _ =>
           Some (print (str_exn e) ;; print "Verify access to the bucket.")
       | _ => None
       end).

(** [create_csv_dataset]: the [return] is the last statement of the loop
    body.  A function that runs off its end returns [None]. *)
Definition create_csv_dataset (data_paths : option (list string))
    (sep : option string) (recursive : bool) (col_dtypes : dict Dtype)
    (frac_size : float) (client : Client) : Proc unit (option Dataset) :=
  let rec_symbol := if recursive then "**" else "*" in
  call
    (match data_paths with
     | None => raise (TypeError "'NoneType' object is not iterable")
     | Some paths =>
         for_ paths (fun path =>
           resolve_path rec_symbol path ;;
           valid_paths <- get_local ;;
           d <- nvt_Dataset valid_paths csv
                  (Some {| csv_names := keys col_dtypes; csv_sep := sep;
                           csv_dtypes := col_dtypes;
                           csv_assume_missing := true |})
                  frac_size client ;;
           ret (Return d))
     end)
    ([] : list string).

(** [convert_csv_to_parquet]. *)
Definition convert_csv_to_parquet (output_path : option string)
    (dataset : option Dataset) (output_files : option Z)
    (shuffle : option string) : Proc unit unit :=
  shuffle <-
    (if decide (shuffle = Some "None") then ret None
     else
       try_except
         (a <- getattr_Shuffle shuffle ;; ret (Some a))
         (fun _ =>
            Some (print "Shuffle method not available. Using default." ;;
                  ret None))) ;;
  to_parquet dataset output_path shuffle (Some output_files).

(** [create_cluster]. *)
Definition create_cluster (n_workers : option Z)
    (device_limit_frac device_pool_frac : float) (memory_limit : Z)
    : Proc unit Client :=
  emit EDeviceMemSize ;;
  let device_size := device_mem_size w in
  x <- lift (fmul_int device_limit_frac device_size) ;;
  device_limit <- lift (int_of_float x) ;;
  y <- lift (fmul_int device_pool_frac device_size) ;;
  device_pool_size <- lift (int_of_float y) ;;
  let rmm_pool_size := (device_pool_size / 256) * 256 in
  let client := {| cl_n_workers := n_workers;
                   cl_device_memory_limit := device_limit;
                   cl_rmm_pool_size := rmm_pool_size;
                   cl_memory_limit := memory_limit |} in
  emit (ECluster client) ;;
  ret client.

(** [create_parquet_dataset]. *)
Definition create_parquet_dataset (client : Client)
    (data_path : option string) (frac_size : float) : Proc unit Dataset :=
  pattern <-
    match data_path with
    | None => raise (TypeError "expected str, bytes or os.PathLike object")
    | Some p => ret (os_path_join p "*.parquet")
    end ;;
  file_list <- fs_glob pattern ;;
  match file_list with
  | [] => raise (FileNotFoundError "Parquet file(s) not found")
  | _ =>
      let file_list := map (fun i => os_path_join "gs://" i) file_list in
      nvt_Dataset file_list parquet None frac_size client
  end.

(** [analyze_dataset]. *)
Definition analyze_dataset (workflow : Workflow) (dataset : Dataset)
    : Proc unit Workflow :=
  emit (EFit workflow dataset) ;;
  ret (Workflow_fit workflow dataset).

(** [workflow.transform(dataset)] as a call: the new handle is the
    value of the call. *)
Definition nvt_transform (workflow : Workflow) (dataset : Dataset)
    : Proc unit Dataset :=
  emit (ETransform workflow dataset) ;;
  ret (Workflow_transform workflow dataset).

(** [transform_dataset]: the value of the call is dropped. *)
Definition transform_dataset (dataset : Dataset) (workflow : Workflow)
    : Proc unit Dataset :=
  nvt_transform workflow dataset ;;
  ret dataset.

(** [load_workflow]: the workflow persisted at the path, bound to the
    client. *)
Definition load_workflow (workflow_path : option string) (client : Client)
    : Proc unit Workflow :=
  emit (ELoadWorkflow workflow_path) ;;
  match workflow_path with
  | None => raise (TypeError "expected str, bytes or os.PathLike object")
  | Some p =>
      fun l h =>
        match wf_store h !! p with
        | Some wf =>
            (Ok {| wf_features := wf_features wf; wf_client := client;
                   wf_fitted_on := wf_fitted_on wf |}, l, h)
        | None => (Raise (FileNotFoundError p), l, h)
        end
  end.

(** [save_workflow]. *)
Definition save_workflow (workflow : Workflow) (output_path : option string)
    : Proc unit unit :=
  emit (ESaveWorkflow workflow output_path) ;;
  match output_path with
  | None => raise (TypeError "expected str, bytes or os.PathLike object")
  | Some p =>
      fun l h =>
        (Ok tt, l,
         {| trace := trace h; wf_store := <[p := workflow]> (wf_store h);
            ticks := ticks h |})
  end.

(** [save_dataset]. *)
Definition save_dataset (dataset : option Dataset)
    (output_path : option string) (shuffle : option string)
    : Proc unit unit :=
  shuffle <-
    (if decide (shuffle = Some "None") then ret None
     else
       try_except
         (a <- getattr_Shuffle shuffle ;; ret (Some a))
         (fun _ =>
            Some (print "Shuffle method not available. Using default." ;;
                  ret None))) ;;
  to_parquet dataset output_path shuffle None.

(** [main_convert]. *)
Definition main_convert (args : Namespace.t) : Proc unit unit :=
  logging_info "Creating cluster" ;;
  client <- create_cluster (Namespace.n_workers args)
              (Namespace.device_limit_frac args)
              (Namespace.device_pool_frac args)
              (Namespace.memory_limit args) ;;
  logging_info "Creating CSV dataset" ;;
  dataset <- create_csv_dataset (Namespace.csv_data_path args)
               (Namespace.sep args) false get_criteo_col_dtypes
               (Namespace.frac_size args) client ;;
  logging_info "Converting CSV to Parquet" ;;
  convert_csv_to_parquet (Namespace.output_path args) dataset
    (Namespace.output_files args) None.

(** [main_analyse]. *)
Definition main_analyse (args : Namespace.t) : Proc unit unit :=
  logging_info "Creating cluster" ;;
  client <- create_cluster (Namespace.n_workers args)
              (Namespace.device_limit_frac args)
              (Namespace.device_pool_frac args)
              (Namespace.memory_limit args) ;;
  logging_info "Creating Parquet dataset" ;;
  dataset <- create_parquet_dataset client (Namespace.parquet_data_path args)
               (Namespace.frac_size args) ;;
  logging_info "Creating Workflow" ;;
  let criteo_workflow := create_criteo_nvt_workflow client in
  logging_info "Analyzing dataset" ;;
  criteo_workflow <- analyze_dataset criteo_workflow dataset ;;
  logging_info "Saving Workflow" ;;
  save_workflow criteo_workflow (Namespace.output_path args).

(** [main_transform]. *)
Definition main_transform (args : Namespace.t) : Proc unit unit :=
  logging_info "Creating cluster" ;;
  client <- create_cluster (Namespace.n_workers args)
              (Namespace.device_limit_frac args)
              (Namespace.device_pool_frac args)
              (Namespace.memory_limit args) ;;
  logging_info "Creating Parquet dataset" ;;
  dataset <- create_parquet_dataset client (Namespace.parquet_data_path args)
               (Namespace.frac_size args) ;;
  logging_info "Loading Workflow" ;;
  criteo_workflow <- load_workflow (Namespace.workflow_path args) client ;;
  logging_info "Transforming Dataset" ;;
  transformed_dataset <- transform_dataset dataset criteo_workflow ;;
  logging_info "Saving transformed dataset" ;;
  save_dataset (Some transformed_dataset) (Namespace.output_path args) None.

(** [time.time()]: the next reading of the clock. *)
Definition time_time : Proc unit float :=
  fun l h =>
    (Ok (clock w (ticks h)), l,
     {| trace := trace h; wf_store := wf_store h; ticks := S (ticks h) |}).

(** The [__main__] block, from the parsed arguments on. *)
Definition main (parsed_args : Namespace.t) : Proc unit unit :=
  start_time <- time_time ;;
  logging_info "Timing task" ;;
  (if decide (Namespace.task parsed_args = Some "convert")
   then main_convert parsed_args
   else if decide (Namespace.task parsed_args = Some "analyse")
   then main_analyse parsed_args
   else if decide (Namespace.task parsed_args = Some "transform")
   then main_transform parsed_args
   else ret tt) ;;
  end_time <- time_time ;;
  let elapsed_time := fsub end_time start_time in
  emit (ELog "Task completed. Elapsed time: %s" (Some elapsed_time)).

(** The program on a command line. *)
Definition program (argv : list Flag) : Proc unit unit :=
  main (parse_args argv).

End Task.

(** ** Concrete worlds used by the examples *)

(** The name of a member of [Shuffle]. *)
Definition member_name (m : Shuffle) : string :=
  match m with
  | PER_PARTITION => "PER_PARTITION"
  | PER_WORKER => "PER_WORKER"
  | FULL => "FULL"
  end.

(** A class namespace is the one of [Shuffle] when the member names, and
    only they, yield the members. *)
Definition Shuffle_namespace (attr : string -> option ClassAttr) : Prop :=
  (forall m, attr (member_name m) = Some (Member m)) /\
  (forall s m, attr s = Some (Member m) -> s = member_name m).

(** The three members and a few of the attributes every class object
    carries. *)
Definition Shuffle_getattr (name : string) : option ClassAttr :=
  if String.eqb name "PER_PARTITION" then Some (Member PER_PARTITION)
  else if String.eqb name "PER_WORKER" then Some (Member PER_WORKER)
  else if String.eqb name "FULL" then Some (Member FULL)
  else if existsb (String.eqb name)
            ["__name__"; "__qualname__"; "__module__"; "__doc__";
             "__members__"; "__class__"]
  then Some (OtherAttr name)
  else None.

(** A bucket with one CSV file, a directory of two Parquet parts and one
    of two CSV files, an empty directory, and a path that does not exist;
    a 16 GiB device. *)
Definition bucket : World :=
  {| isfile := fun p =>
       Ok (existsb (String.eqb p)
             ["gs://bucket/day_0.csv"; "bucket/more/day_1.csv";
              "bucket/more/day_2.csv"]);
     glob := fun pat =>
       if String.eqb pat "gs://bucket/data/*.parquet"
       then Ok ["bucket/data/part_0.parquet"; "bucket/data/part_1.parquet"]
       else if String.eqb pat "gs://bucket/more/*"
       then Ok ["bucket/more/day_1.csv"; "bucket/more/day_2.csv"]
       else if String.eqb pat "gs://bucket/missing/*"
       then Raise (FileNotFoundError "bucket/missing")
       else Ok [];
     shuffle_attr := Shuffle_getattr;
     device_mem_size := 17179869184;
     clock := fun k => binary_normalize prec emax (Z.of_nat k) 0 false |}.

(** The same bucket seen from a device of 3 bytes. *)
Definition tiny_device : World :=
  {| isfile := isfile bucket; glob := glob bucket;
     shuffle_attr := shuffle_attr bucket;
     device_mem_size := 3; clock := clock bucket |}.

(** The double -0.5. *)
Definition minus_half : float := S754_finite true 4503599627370496 (-53).

(** ** Vocabulary of the statements *)

(** [int(frac * device_mem_size())] evaluates to [n]. *)
Definition fraction_of_device (w : World) (frac : float) (n : Z) : Prop :=
  exists x, fmul_int frac (device_mem_size w) = Ok x /\ int_of_float x = Ok n.

(** The client [create_cluster] builds from the parsed arguments when the
    two fractions of the device memory come out as [limit] and [pool]. *)
Definition cluster_client (args : Namespace.t) (limit pool : Z) : Client :=
  {| cl_n_workers := Namespace.n_workers args;
     cl_device_memory_limit := limit;
     cl_rmm_pool_size := pool / 256 * 256;
     cl_memory_limit := Namespace.memory_limit args |}.

(** The handle [create_parquet_dataset] builds on a listing. *)
Definition parquet_handle (listing : list string) (frac : float)
    (client : Client) : Dataset :=
  {| ds_path_or_source := map (fun i => os_path_join "gs://" i) listing;
     ds_engine := parquet; ds_csv := None; ds_part_mem_fraction := frac;
     ds_client := client; ds_applied := [] |}.

(** The handle [create_csv_dataset] builds on resolved paths. *)
Definition csv_handle (valid_paths : list string) (sep : option string)
    (col_dtypes : dict Dtype) (frac : float) (client : Client) : Dataset :=
  {| ds_path_or_source := valid_paths; ds_engine := csv;
     ds_csv := Some {| csv_names := keys col_dtypes; csv_sep := sep;
                       csv_dtypes := col_dtypes;
                       csv_assume_missing := true |};
     ds_part_mem_fraction := frac; ds_client := client; ds_applied := [] |}.

(** A persisted workflow as [load_workflow] hands it out. *)
Definition rebind (wf : Workflow) (client : Client) : Workflow :=
  {| wf_features := wf_features wf; wf_client := client;
     wf_fitted_on := wf_fitted_on wf |}.

(** The heap after [n] more readings of the clock. *)
Definition add_ticks (h : Heap) (n : nat) : Heap :=
  {| trace := trace h; wf_store := wf_store h; ticks := (n + ticks h)%nat |}.

(** The heap after a workflow is persisted. *)
Definition add_workflow (h : Heap) (path : string) (wf : Workflow) : Heap :=
  {| trace := trace h; wf_store := <[path := wf]> (wf_store h);
     ticks := ticks h |}.

(** Command lines of the three tasks on [bucket]. *)
Definition analyse_argv : list Flag :=
  [F_task "analyse"; F_parquet_data_path "gs://bucket/data";
   F_output_path "gs://bucket/workflow"].

Definition transform_argv : list Flag :=
  [F_task "transform"; F_parquet_data_path "gs://bucket/data";
   F_workflow_path "gs://bucket/workflow"; F_output_path "gs://bucket/out"].

(** The heap the analyse task leaves behind. *)
Definition analysed : Heap := snd (run (program bucket analyse_argv) heap0).

(** The client of the default fractions on [bucket]'s device, and the
    dataset of its Parquet directory. *)
Definition demo_client : Client :=
  cluster_client defaults 10307921510 15461882265.

Definition demo_dataset : Dataset :=
  parquet_handle ["bucket/data/part_0.parquet"; "bucket/data/part_1.parquet"]
    (float_lit 10 100) demo_client.

(** The workflow the analyse task persists on [bucket], as the transform
    task loads it. *)
Definition demo_workflow : Workflow :=
  rebind (Workflow_fit (create_criteo_nvt_workflow demo_client) demo_dataset)
    demo_client.

(** ** The BigQuery export *)

(** A table reference: [dataset_ref.table(table_id)]. *)
Record TableRef := {
  tr_dataset : string;
  tr_table_id : string
}.

(** The calls [extract_table_from_bq] makes on the BigQuery client and on
    the job it gets back. *)
Inductive BqCall :=
| BqExtractTable (table_ref : TableRef) (destination_uris : string)
                 (location : string) (destination_format : string)
| BqJobResult.

(** [extract_table_from_bq(client, output_dir, dataset_ref, table_id,
    location)], by the calls it makes, in order. *)
Definition extract_table_from_bq (output_dir dataset_ref table_id : string)
    (location : string) : list BqCall :=
  let destination_format := "PARQUET" in
  let bq_glob_path := os_path_join output_dir "criteo-*.parquet" in
  let table_ref := {| tr_dataset := dataset_ref; tr_table_id := table_id |} in
  [BqExtractTable table_ref bq_glob_path location destination_format;
   BqJobResult].

(** ** More vocabulary *)

(** The files a directory listing contributes to a CSV dataset: the
    entries that are files, in the order of the listing, behind
    ["gs://"]. *)
Fixpoint listed_files (w : World) (items : list string) : list string :=
  match items with
  | [] => []
  | i :: rest =>
      match isfile w i with
      | Ok true => ("gs://" +:+ i) :: listed_files w rest
      | _ => listed_files w rest
      end
  end.

(** The loop over a listing, as it is written in [resolve_path]. *)
Definition listing_loop (w : World) (items : list string)
    : Proc (list string) (option unit) :=
  for_ (R := unit) items (fun i =>
    b <- fs_isfile w i ;;
    (if b : bool then valid_paths_append ("gs://" +:+ i) else ret tt) ;;
    ret Continue).

(** [isfile] answers on every entry of a listing. *)
Definition all_answered (w : World) (items : list string) : Prop :=
  Forall (fun i => exists b, isfile w i = Ok b) items.

(** The diagnostic of the two handlers of [create_csv_dataset]. *)
Definition path_diagnostic (e : Exn) : option string :=
  match e with
  | FileNotFoundError _ => Some "Incorrect path: {path}."
  | OSError _ => Some "Verify access to the bucket."
  | _ => None
  end.

(** The two sizes [create_cluster] computes before it creates the
    cluster, in the order of the code: the first step that raises ends
    the computation. *)
Definition device_fractions (w : World) (device_limit_frac
    device_pool_frac : float) : result (Z * Z) :=
  match fmul_int device_limit_frac (device_mem_size w) with
  | Raise e => Raise e
  | Ok x =>
      match int_of_float x with
      | Raise e => Raise e
      | Ok device_limit =>
          match fmul_int device_pool_frac (device_mem_size w) with
          | Raise e => Raise e
          | Ok y =>
              match int_of_float y with
              | Raise e => Raise e
              | Ok device_pool_size => Ok (device_limit, device_pool_size)
              end
          end
      end
  end.

(** One of the three task names. *)
Definition known_task (args : Namespace.t) : Prop :=
  Namespace.task args = Some "convert" \/
  Namespace.task args = Some "analyse" \/
  Namespace.task args = Some "transform".

(** The task the [__main__] block dispatches to: the [if] chain on
    [parsed_args.task]. *)
Definition dispatch (w : World) (parsed_args : Namespace.t)
    : Proc unit unit :=
  if decide (Namespace.task parsed_args = Some "convert")
  then main_convert w parsed_args
  else if decide (Namespace.task parsed_args = Some "analyse")
  then main_analyse w parsed_args
  else if decide (Namespace.task parsed_args = Some "transform")
  then main_transform w parsed_args
  else ret tt.

(** Events by kind. *)
Definition is_log (e : Event) : bool :=
  match e with ELog _ _ => true | _ => false end.

Definition is_storage_read (e : Event) : bool :=
  match e with EIsFile _ | EGlob _ => true | _ => false end.

Definition is_write (e : Event) : bool :=
  match e with EToParquet _ _ _ _ => true | _ => false end.

Definition is_workflow_event (e : Event) : bool :=
  match e with
  | EFit _ _ | ETransform _ _ | ESaveWorkflow _ _ | ELoadWorkflow _ => true
  | _ => false
  end.

(** The record of the elapsed time is the one log record with an
    argument. *)
Definition is_elapsed_log (e : Event) : bool :=
  match e with ELog _ (Some _) => true | _ => false end.

(** The events the convert task may produce. *)
Definition convert_event (e : Event) : bool :=
  match e with
  | ELog _ None | EPrint _ | EIsFile _ | EGlob _ | EDeviceMemSize
  | ECluster _ | EDataset _ | EToParquet _ _ _ _ => true
  | _ => false
  end.

(** The events the analyse task may produce. *)
Definition analyse_event (e : Event) : bool :=
  match e with
  | ELog _ None | EGlob _ | EDeviceMemSize | ECluster _ | EDataset _
  | EFit _ _ | ESaveWorkflow _ _ => true
  | _ => false
  end.

(** The events the transform task may produce. *)
Definition transform_event (e : Event) : bool :=
  match e with
  | ELog _ None | EPrint _ | EGlob _ | EDeviceMemSize | ECluster _
  | EDataset _ | ELoadWorkflow _ | ETransform _ _ | EToParquet _ _ _ _ =>
      true
  | _ => false
  end.


(** The persisted workflows, unchanged or changed at most at [path]. *)
Definition overwritten_at (path : option string)
    (s s' : gmap string Workflow) : Prop :=
  s' = s \/ exists p wf, path = Some p /\ s' = <[p := wf]> s.

(** [h'] is [h] after some events of the kind [ok]: the clock has not
    been read, and the persisted workflows are related by [R]. *)
Definition within (R : relation (gmap string Workflow))
    (ok : Event -> bool) (h h' : Heap) : Prop :=
  ticks h' = ticks h /\ R (wf_store h) (wf_store h') /\
  exists evs, trace h' = (trace h ++ evs)%list /\ forallb ok evs = true.

(** A procedure that, however it ends, only adds events of the kind
    [ok] and moves the persisted workflows along [R]. *)
Definition confined {L A} (R : relation (gmap string Workflow))
    (ok : Event -> bool) (c : Proc L A) : Prop :=
  forall l h, within R ok h (snd (c l h)).

(** A bucket in which one entry of the directory cannot be examined. *)
Definition locked_entry : World :=
  {| isfile := fun p =>
       if String.eqb p "bucket/more/day_locked.csv"
       then Raise (OSError "Forbidden")
       else isfile bucket p;
     glob := fun pat =>
       if String.eqb pat "gs://bucket/more/*"
       then Ok ["bucket/more/day_1.csv"; "bucket/more/day_locked.csv";
                "bucket/more/day_2.csv"]
       else glob bucket pat;
     shuffle_attr := shuffle_attr bucket;
     device_mem_size := device_mem_size bucket;
     clock := clock bucket |}.

(** A store whose client fails with an error that is no [OSError]. *)
Definition broken_store : World :=
  {| isfile := fun _ => Raise (ValueError "Invalid bucket name");
     glob := fun _ => Raise (ValueError "Invalid bucket name");
     shuffle_attr := shuffle_attr bucket;
     device_mem_size := device_mem_size bucket;
     clock := clock bucket |}.

(** The client of the 3-byte device for the fractions 0.60 and -0.5. *)
Definition tiny_client : Client :=
  {| cl_n_workers := None; cl_device_memory_limit := 1;
     cl_rmm_pool_size := -256; cl_memory_limit := 100000000000 |}.

(** Command line of the convert task on [bucket]. *)
Definition convert_argv : list Flag :=
  [F_task "convert";
   F_csv_data_path ["gs://bucket/day_0.csv"; "gs://bucket/more"];
   F_sep ","; F_output_path "gs://bucket/parquet"; F_output_files 8].

(** * Properties *)

(** ** Python helpers *)

Example str_13 : str 13 = "13".
Proof. reflexivity. Qed.

Example join_dir :
  os_path_join "gs://b/data" "*.parquet" = "gs://b/data/*.parquet".
Proof. reflexivity. Qed.

Example join_slash : os_path_join "gs://" "b/x.parquet" = "gs://b/x.parquet".
Proof. reflexivity. Qed.

Example float_lit_tenth :
  float_lit 10 100 = S754_finite false 7205759403792794 (-56).
Proof. vm_compute. reflexivity. Qed.

Example minus_half_times_3 :
  fmul_int minus_half 3 = Ok (S754_finite true 6755399441055744 (-52)).
Proof. vm_compute. reflexivity. Qed.

Lemma Shuffle_getattr_namespace : Shuffle_namespace Shuffle_getattr.
Proof.
  split.
  - intros []; reflexivity.
  - intros s m. unfold Shuffle_getattr.
    destruct (String.eqb_spec s "PER_PARTITION") as [->|_];
      [intros [= <-]; reflexivity|].
    destruct (String.eqb_spec s "PER_WORKER") as [->|_];
      [intros [= <-]; reflexivity|].
    destruct (String.eqb_spec s "FULL") as [->|_];
      [intros [= <-]; reflexivity|].
    destruct (existsb _ _); discriminate.
Qed.

(** ** The column dtypes *)

(** Case analysis on an integer known to lie in a small interval. *)
Ltac enum_from lo i H :=
  let E := fresh "E" in
  destruct (Z.eq_dec i lo) as [E|E];
  [ subst i
  | first [ exfalso; lia
          | let lo' := eval compute in (lo + 1) in enum_from lo' i H ] ].

Lemma get_criteo_col_dtypes_keys :
  keys get_criteo_col_dtypes =
  ("label" :: map (fun i => "I" +:+ str i) (range 1 14) ++
              map (fun i => "C" +:+ str i) (range 1 27))%list.
Proof. vm_compute. reflexivity. Qed.

Lemma dict_get_keys {V} (d : dict V) k v :
  dict_get d k = Some v -> In k (keys d).
Proof.
  induction d as [|[k' v'] d IH]; simpl; [discriminate|].
  destruct (String.eqb_spec k' k); [left; assumption|].
  intros H. right. apply IH, H.
Qed.

(** C4. [get_criteo_col_dtypes] returns a mapping of exactly 40 entries
    with pairwise distinct keys: ["label"] is mapped to int32, each of
    [I1 .. I13] to int32, each of [C1 .. C26] to the marker ["hex"], and
    there is no other key. *)
Theorem get_criteo_col_dtypes_entries :
  length get_criteo_col_dtypes = 40%nat /\
  NoDup (keys get_criteo_col_dtypes) /\
  dict_get get_criteo_col_dtypes "label" = Some np_int32 /\
  (forall i, 1 <= i <= 13 ->
     dict_get get_criteo_col_dtypes ("I" +:+ str i) = Some np_int32) /\
  (forall i, 1 <= i <= 26 ->
     dict_get get_criteo_col_dtypes ("C" +:+ str i) = Some hex) /\
  (forall k v, dict_get get_criteo_col_dtypes k = Some v ->
     k = "label" \/
     (exists i, 1 <= i <= 13 /\ k = "I" +:+ str i) \/
     (exists i, 1 <= i <= 26 /\ k = "C" +:+ str i)).
Proof.
  split; [reflexivity|].
  split.
  { apply (bool_decide_unpack _). vm_compute. exact I. }
  split; [reflexivity|].
  split; [intros i Hi; enum_from 1 i Hi; reflexivity|].
  split; [intros i Hi; enum_from 1 i Hi; reflexivity|].
  intros k v Hk. apply dict_get_keys in Hk.
  rewrite get_criteo_col_dtypes_keys in Hk.
  destruct Hk as [<-|Hk]; [left; reflexivity|right].
  apply in_app_or in Hk. destruct Hk as [Hk|Hk]; [left|right];
    apply in_map_iff in Hk; destruct Hk as [i [<- Hi]];
    exists i; (split; [|reflexivity]);
    unfold range in Hi; apply in_map_iff in Hi;
    destruct Hi as [n [<- Hn]]; apply in_seq in Hn; simpl in Hn; lia.
Qed.

(** The entry of column [I7], read off the theorem. *)
Lemma get_criteo_col_dtypes_entries_witness :
  1 <= 7 <= 13 /\
  dict_get get_criteo_col_dtypes ("I" +:+ str 7) = Some np_int32.
Proof.
  split; [lia|].
  apply (proj1 (proj2 (proj2 (proj2 get_criteo_col_dtypes_entries)))). lia.
Defined.

(** ** Running procedures *)

Lemma add_events_app h a b :
  add_events (add_events h a) b = add_events h (a ++ b).
Proof. unfold add_events; simpl. by rewrite <- app_assoc. Qed.

Lemma add_events_nil h : add_events h [] = h.
Proof. destruct h; unfold add_events; simpl. by rewrite app_nil_r. Qed.

Lemma bind_ok {L A B} (c : Proc L A) (k : A -> Proc L B) l h a l' h' :
  c l h = (Ok a, l', h') -> bind c k l h = k a l' h'.
Proof. intros H. unfold bind. by rewrite H. Qed.

Lemma bind_raise {L A B} (c : Proc L A) (k : A -> Proc L B) l h e l' h' :
  c l h = (Raise e, l', h') -> bind c k l h = (Raise e, l', h').
Proof. intros H. unfold bind. by rewrite H. Qed.

Lemma bind_emit {L B} ev (k : unit -> Proc L B) l h :
  bind (emit ev) k l h = k tt l (add_events h [ev]).
Proof. reflexivity. Qed.

(** The body of a loop that always returns runs once. *)
Lemma for_return_first {L X R} (x : X) (rest : list X)
    (body : X -> Proc L (Ctl R)) l h r l' h' :
  body x l h = (Ok (Return r), l', h') ->
  for_ (x :: rest) body l h = (Ok (Some r), l', h').
Proof. intros H. simpl. by rewrite (bind_ok _ _ _ _ _ _ _ H). Qed.

(** ** Cluster sizing *)

(** On a finite float that is not negative, [int] is the floor. *)
Lemma int_of_float_floor x :
  finite_nonneg x = true ->
  exists z, int_of_float x = Ok z /\ floor_of_float x = Some z.
Proof.
  destruct x as [s|s| |s m e]; simpl; try discriminate.
  - intros _. by exists 0.
  - intros Hs. apply negb_true_iff in Hs. subst s. simpl.
    destruct (0 <=? e) eqn:He.
    + eexists; split; reflexivity.
    + eexists; split; [reflexivity|].
      apply Z.leb_gt in He.
      rewrite Z.quot_div_nonneg; [reflexivity|lia|].
      apply Z.pow_pos_nonneg; lia.
Qed.

(** [(p // 256) * 256] is the largest multiple of 256 that is at most
    [p], for every integer [p]. *)
Lemma floor_to_256 p :
  let r := p / 256 * 256 in
  (256 | r) /\ r <= p /\ forall k, (256 | k) -> k <= p -> k <= r.
Proof.
  simpl. split; [by exists (p / 256)|]. split.
  - pose proof (Z.mul_div_le p 256). lia.
  - intros k [q ->] Hk.
    assert (q <= p / 256) by (apply Z.div_le_lower_bound; lia).
    lia.
Qed.

Lemma create_cluster_run w nw dlf dpf ml x a y b l h :
  fmul_int dlf (device_mem_size w) = Ok x -> int_of_float x = Ok a ->
  fmul_int dpf (device_mem_size w) = Ok y -> int_of_float y = Ok b ->
  let client := {| cl_n_workers := nw; cl_device_memory_limit := a;
                   cl_rmm_pool_size := b / 256 * 256;
                   cl_memory_limit := ml |} in
  create_cluster w nw dlf dpf ml l h =
  (Ok client, l, add_events h [EDeviceMemSize; ECluster client]).
Proof.
  intros Hx Ha Hy Hb client. unfold create_cluster.
  rewrite bind_emit, Hx. simpl. unfold bind at 1. simpl.
  rewrite Ha. simpl. unfold bind at 1. simpl.
  rewrite Hy. simpl. unfold bind at 1. simpl.
  rewrite Hb. simpl. unfold bind at 1. simpl.
  rewrite bind_emit. unfold ret. by rewrite add_events_app.
Qed.

(** C9, amended.  Whenever the binary64 products [device_limit_frac * s]
    and [device_pool_frac * s] of the fractions with the device memory
    size [s] are finite and not negative, [create_cluster] returns a
    client whose device memory limit is the floor of the first product,
    whose RMM pool size is the largest multiple of 256 that is at most the
    floor of the second, and to which [n_workers] and [memory_limit] are
    forwarded unchanged. *)
Theorem create_cluster_sizing w nw dlf dpf ml x y h :
  fmul_int dlf (device_mem_size w) = Ok x -> finite_nonneg x = true ->
  fmul_int dpf (device_mem_size w) = Ok y -> finite_nonneg y = true ->
  exists client h' pool,
    run (create_cluster w nw dlf dpf ml) h = (Ok client, h') /\
    In (ECluster client) (trace h') /\
    floor_of_float x = Some (cl_device_memory_limit client) /\
    floor_of_float y = Some pool /\
    (256 | cl_rmm_pool_size client) /\
    cl_rmm_pool_size client <= pool /\
    (forall k, (256 | k) -> k <= pool -> k <= cl_rmm_pool_size client) /\
    cl_n_workers client = nw /\
    cl_memory_limit client = ml.
Proof.
  intros Hx Nx Hy Ny.
  destruct (int_of_float_floor x Nx) as [a [Ha Fa]].
  destruct (int_of_float_floor y Ny) as [b [Hb Fb]].
  pose proof (create_cluster_run w nw dlf dpf ml x a y b tt h Hx Ha Hy Hb)
    as Hrun.
  simpl in Hrun.
  eexists _, _, b. unfold run. rewrite Hrun.
  split; [reflexivity|].
  split; [simpl; apply in_or_app; right; simpl; auto|].
  simpl. destruct (floor_to_256 b) as [D [Le Max]].
  repeat split; assumption.
Qed.

(** The defaults of the command line on a 16 GiB device. *)
Lemma create_cluster_sizing_witness :
  exists client h' pool,
    run (create_cluster bucket None (float_lit 60 100) (float_lit 90 100)
           100000000000) heap0 = (Ok client, h') /\
    In (ECluster client) (trace h') /\
    floor_of_float (S754_finite false 5404319552844595 (-19)) =
      Some (cl_device_memory_limit client) /\
    floor_of_float (S754_finite false 8106479329266893 (-19)) = Some pool /\
    (256 | cl_rmm_pool_size client) /\
    cl_rmm_pool_size client <= pool /\
    (forall k, (256 | k) -> k <= pool -> k <= cl_rmm_pool_size client) /\
    cl_n_workers client = None /\
    cl_memory_limit client = 100000000000.
Proof.
  apply (create_cluster_sizing bucket None (float_lit 60 100)
           (float_lit 90 100) 100000000000
           (S754_finite false 5404319552844595 (-19))
           (S754_finite false 8106479329266893 (-19)) heap0);
    vm_compute; reflexivity.
Defined.

(** C9 as stated fails for a negative fraction: with
    [device_limit_frac = -0.5] and a device of 3 bytes the product is
    -1.5, whose floor is -2, and the cluster is given the limit -1. *)
Lemma create_cluster_negative_fraction :
  exists client h' x,
    run (create_cluster tiny_device None minus_half (float_lit 90 100)
           100000000000) heap0 = (Ok client, h') /\
    fmul_int minus_half (device_mem_size tiny_device) = Ok x /\
    floor_of_float x = Some (-2) /\
    cl_device_memory_limit client = -1 /\
    floor_of_float x <> Some (cl_device_memory_limit client).
Proof.
  eexists _, _, _.
  split; [vm_compute; reflexivity|].
  split; [vm_compute; reflexivity|].
  split; [vm_compute; reflexivity|].
  split; [reflexivity|].
  vm_compute. discriminate.
Qed.

(** ** The Parquet tasks *)

Lemma fraction_of_device_cluster w args a b l h :
  fraction_of_device w (Namespace.device_limit_frac args) a ->
  fraction_of_device w (Namespace.device_pool_frac args) b ->
  create_cluster w (Namespace.n_workers args)
    (Namespace.device_limit_frac args) (Namespace.device_pool_frac args)
    (Namespace.memory_limit args) l h =
  (Ok (cluster_client args a b), l,
   add_events h [EDeviceMemSize; ECluster (cluster_client args a b)]).
Proof.
  intros [x [Hx Ha]] [y [Hy Hb]].
  apply (create_cluster_run w _ _ _ _ x a y b l h Hx Ha Hy Hb).
Qed.

(** Evaluate the monad's combinators and the library calls, leaving the
    reads of the world in place. *)
Ltac proc :=
  cbv [bind emit ret raise lift call try_except get_local set_local run
       fs_glob fs_isfile logging_info print nvt_Dataset getattr_Shuffle
       to_parquet valid_paths_append];
  rewrite ?add_events_app; simpl app.

Lemma create_parquet_dataset_empty w client p frac l h :
  glob w (os_path_join p "*.parquet") = Ok [] ->
  create_parquet_dataset w client (Some p) frac l h =
  (Raise (FileNotFoundError "Parquet file(s) not found"), l,
   add_events h [EGlob (os_path_join p "*.parquet")]).
Proof.
  intros Hg. unfold create_parquet_dataset. proc. rewrite Hg. reflexivity.
Qed.

Lemma create_parquet_dataset_listing w client p frac l h f fs :
  glob w (os_path_join p "*.parquet") = Ok (f :: fs) ->
  create_parquet_dataset w client (Some p) frac l h =
  (Ok (parquet_handle (f :: fs) frac client), l,
   add_events h [EGlob (os_path_join p "*.parquet");
                 EDataset (parquet_handle (f :: fs) frac client)]).
Proof.
  intros Hg. unfold create_parquet_dataset. proc. rewrite Hg. proc.
  reflexivity.
Qed.

Lemma main_analyse_run w args a b p f fs out h :
  fraction_of_device w (Namespace.device_limit_frac args) a ->
  fraction_of_device w (Namespace.device_pool_frac args) b ->
  Namespace.parquet_data_path args = Some p ->
  glob w (os_path_join p "*.parquet") = Ok (f :: fs) ->
  Namespace.output_path args = Some out ->
  let client := cluster_client args a b in
  let dataset := parquet_handle (f :: fs) (Namespace.frac_size args) client in
  let workflow := create_criteo_nvt_workflow client in
  run (main_analyse w args) h =
  (Ok tt,
   add_workflow
     (add_events h
        [ELog "Creating cluster" None; EDeviceMemSize; ECluster client;
         ELog "Creating Parquet dataset" None;
         EGlob (os_path_join p "*.parquet"); EDataset dataset;
         ELog "Creating Workflow" None; ELog "Analyzing dataset" None;
         EFit workflow dataset; ELog "Saving Workflow" None;
         ESaveWorkflow (Workflow_fit workflow dataset) (Some out)])
     out (Workflow_fit workflow dataset)).
Proof.
  intros Ha Hb Hp Hg Ho client dataset workflow.
  unfold main_analyse. proc.
  rewrite (fraction_of_device_cluster w args a b _ _ Ha Hb), Hp.
  rewrite (create_parquet_dataset_listing w _ p _ _ _ f fs Hg).
  unfold analyze_dataset, save_workflow. proc. rewrite Ho.
  reflexivity.
Qed.

Lemma main_transform_run w args a b p f fs wp stored h :
  fraction_of_device w (Namespace.device_limit_frac args) a ->
  fraction_of_device w (Namespace.device_pool_frac args) b ->
  Namespace.parquet_data_path args = Some p ->
  glob w (os_path_join p "*.parquet") = Ok (f :: fs) ->
  Namespace.workflow_path args = Some wp ->
  wf_store h !! wp = Some stored ->
  let client := cluster_client args a b in
  let dataset := parquet_handle (f :: fs) (Namespace.frac_size args) client in
  let workflow := rebind stored client in
  run (main_transform w args) h =
  (Ok tt,
   add_events h
     [ELog "Creating cluster" None; EDeviceMemSize; ECluster client;
      ELog "Creating Parquet dataset" None;
      EGlob (os_path_join p "*.parquet"); EDataset dataset;
      ELog "Loading Workflow" None; ELoadWorkflow (Some wp);
      ELog "Transforming Dataset" None; ETransform workflow dataset;
      ELog "Saving transformed dataset" None;
      EPrint "Shuffle method not available. Using default.";
      EToParquet dataset (Namespace.output_path args) None None]).
Proof.
  intros Ha Hb Hp Hg Hw Hs client dataset workflow.
  unfold main_transform. proc.
  rewrite (fraction_of_device_cluster w args a b _ _ Ha Hb), Hp.
  rewrite (create_parquet_dataset_listing w _ p _ _ _ f fs Hg).
  unfold load_workflow, transform_dataset, nvt_transform, save_dataset.
  proc. rewrite Hw. simpl. rewrite Hs.
  rewrite !add_events_app. reflexivity.
Qed.

Lemma main_parquet_task_not_found w args a b p h :
  Namespace.task args = Some "analyse" \/
  Namespace.task args = Some "transform" ->
  fraction_of_device w (Namespace.device_limit_frac args) a ->
  fraction_of_device w (Namespace.device_pool_frac args) b ->
  Namespace.parquet_data_path args = Some p ->
  glob w (os_path_join p "*.parquet") = Ok [] ->
  run (main w args) h =
  (Raise (FileNotFoundError "Parquet file(s) not found"),
   add_events (add_ticks h 1)
     [ELog "Timing task" None; ELog "Creating cluster" None;
      EDeviceMemSize; ECluster (cluster_client args a b);
      ELog "Creating Parquet dataset" None;
      EGlob (os_path_join p "*.parquet")]).
Proof.
  intros Ht Ha Hb Hp Hg. unfold main, time_time.
  destruct Ht as [Ht|Ht]; rewrite Ht;
    rewrite decide_False by discriminate;
    [ rewrite decide_True by reflexivity
    | rewrite decide_False by discriminate;
      rewrite decide_True by reflexivity ];
    [unfold main_analyse|unfold main_transform]; proc;
    rewrite (fraction_of_device_cluster w args a b _ _ Ha Hb), Hp;
    rewrite (create_parquet_dataset_empty w _ p _ _ _ Hg);
    proc; reflexivity.
Qed.

(** C5. When the listing of [<data_path>/*.parquet] is empty,
    [create_parquet_dataset] raises [FileNotFoundError('Parquet file(s)
    not found')], and the analyse and transform tasks end with that
    exception, nothing being logged or done after it; when the listing is
    not empty the function returns the dataset on the listed files. *)
Theorem create_parquet_dataset_not_found w :
  (forall client p frac h,
     glob w (os_path_join p "*.parquet") = Ok [] ->
     run (create_parquet_dataset w client (Some p) frac) h =
     (Raise (FileNotFoundError "Parquet file(s) not found"),
      add_events h [EGlob (os_path_join p "*.parquet")])) /\
  (forall args a b p h,
     Namespace.task args = Some "analyse" \/
     Namespace.task args = Some "transform" ->
     fraction_of_device w (Namespace.device_limit_frac args) a ->
     fraction_of_device w (Namespace.device_pool_frac args) b ->
     Namespace.parquet_data_path args = Some p ->
     glob w (os_path_join p "*.parquet") = Ok [] ->
     run (main w args) h =
     (Raise (FileNotFoundError "Parquet file(s) not found"),
      add_events (add_ticks h 1)
        [ELog "Timing task" None; ELog "Creating cluster" None;
         EDeviceMemSize; ECluster (cluster_client args a b);
         ELog "Creating Parquet dataset" None;
         EGlob (os_path_join p "*.parquet")])) /\
  (forall client p frac h f fs,
     glob w (os_path_join p "*.parquet") = Ok (f :: fs) ->
     run (create_parquet_dataset w client (Some p) frac) h =
     (Ok (parquet_handle (f :: fs) frac client),
      add_events h [EGlob (os_path_join p "*.parquet");
                    EDataset (parquet_handle (f :: fs) frac client)])).
Proof.
  split; [|split].
  - intros client p frac h Hg. unfold run.
    by rewrite (create_parquet_dataset_empty w client p frac tt h Hg).
  - intros args a b p h. apply main_parquet_task_not_found.
  - intros client p frac h f fs Hg. unfold run.
    by rewrite (create_parquet_dataset_listing w client p frac tt h f fs Hg).
Qed.

(** An empty directory, the analyse task on it, and a directory with two
    parts. *)
Lemma create_parquet_dataset_not_found_witness :
  run (create_parquet_dataset bucket demo_client (Some "gs://bucket/empty")
         (float_lit 10 100)) heap0 =
  (Raise (FileNotFoundError "Parquet file(s) not found"),
   add_events heap0 [EGlob "gs://bucket/empty/*.parquet"]) /\
  fst (run (program bucket
              [F_task "analyse"; F_parquet_data_path "gs://bucket/empty"])
         heap0) =
  Raise (FileNotFoundError "Parquet file(s) not found") /\
  fst (run (create_parquet_dataset bucket demo_client
              (Some "gs://bucket/data") (float_lit 10 100)) heap0) =
  Ok demo_dataset.
Proof.
  destruct (create_parquet_dataset_not_found bucket) as [E [M N]].
  split; [|split].
  - apply (E demo_client "gs://bucket/empty" (float_lit 10 100) heap0).
    reflexivity.
  - unfold program.
    rewrite (M (parse_args [F_task "analyse";
                            F_parquet_data_path "gs://bucket/empty"])
               10307921510 15461882265 "gs://bucket/empty" heap0).
    + reflexivity.
    + left. reflexivity.
    + eexists. split; vm_compute; reflexivity.
    + eexists. split; vm_compute; reflexivity.
    + reflexivity.
    + reflexivity.
  - rewrite (N demo_client "gs://bucket/data" (float_lit 10 100) heap0
               "bucket/data/part_0.parquet" ["bucket/data/part_1.parquet"]).
    + reflexivity.
    + reflexivity.
Defined.

(** ** The unknown task *)

(** C10. For every value of [--task] other than ['convert'], ['analyse']
    and ['transform'], the flag left out included, the program runs no
    task: the only events are the two log records, the second with the
    elapsed time, no cluster is created, nothing is read or written, and
    the run ends normally. *)
Theorem main_unknown_task w args h :
  Namespace.task args <> Some "convert" ->
  Namespace.task args <> Some "analyse" ->
  Namespace.task args <> Some "transform" ->
  run (main w args) h =
  (Ok tt,
   {| trace := trace h ++
        [ELog "Timing task" None;
         ELog "Task completed. Elapsed time: %s"
           (Some (fsub (clock w (S (ticks h))) (clock w (ticks h))))];
      wf_store := wf_store h;
      ticks := S (S (ticks h)) |}).
Proof.
  intros Hc Ha Ht. unfold main, time_time.
  rewrite !decide_False by assumption.
  proc. unfold add_events. simpl. by rewrite <- app_assoc.
Qed.

(** The flag left out, and a task name the program does not know. *)
Lemma main_unknown_task_witness :
  run (program bucket []) heap0 =
  (Ok tt,
   {| trace := [ELog "Timing task" None;
                ELog "Task completed. Elapsed time: %s"
                  (Some (fsub (clock bucket 1) (clock bucket 0)))];
      wf_store := ∅; ticks := 2 |}) /\
  fst (run (program bucket [F_task "Convert"]) heap0) = Ok tt.
Proof.
  split.
  - apply (main_unknown_task bucket (parse_args []) heap0); discriminate.
  - unfold program.
    rewrite (main_unknown_task bucket (parse_args [F_task "Convert"]) heap0);
      [reflexivity|discriminate..].
Defined.

(** ** The workflow *)

Lemma In_add_events h evs ev : In ev evs -> In ev (trace (add_events h evs)).
Proof. intros H. simpl. apply in_or_app. by right. Qed.

(** C8. [create_criteo_nvt_workflow] builds exactly three column groups:
    [C1 .. C26] through [Categorify(max_size=10000000)], [I1 .. I13]
    through [FillMissing], [Clip(min_value=0)], [Normalize] in that order,
    and the bare ['label'] column.  The analyse task creates this
    workflow, fits it and persists it at [--output_path]; the transform
    task loads the workflow persisted at [--workflow_path] and uses it. *)
Theorem criteo_workflow_lifecycle w args a b p f fs h :
  fraction_of_device w (Namespace.device_limit_frac args) a ->
  fraction_of_device w (Namespace.device_pool_frac args) b ->
  Namespace.parquet_data_path args = Some p ->
  glob w (os_path_join p "*.parquet") = Ok (f :: fs) ->
  let client := cluster_client args a b in
  let dataset := parquet_handle (f :: fs) (Namespace.frac_size args) client in
  let fresh := create_criteo_nvt_workflow client in
  wf_features fresh =
    [ {| cg_columns :=
           ["C1"; "C2"; "C3"; "C4"; "C5"; "C6"; "C7"; "C8"; "C9"; "C10";
            "C11"; "C12"; "C13"; "C14"; "C15"; "C16"; "C17"; "C18"; "C19";
            "C20"; "C21"; "C22"; "C23"; "C24"; "C25"; "C26"];
         cg_ops := [Categorify 10000000] |};
      {| cg_columns :=
           ["I1"; "I2"; "I3"; "I4"; "I5"; "I6"; "I7"; "I8"; "I9"; "I10";
            "I11"; "I12"; "I13"];
         cg_ops := [FillMissing; Clip 0; Normalize] |};
      {| cg_columns := ["label"]; cg_ops := [] |} ] /\
  wf_fitted_on fresh = None /\
  (forall out, Namespace.output_path args = Some out ->
     exists h',
       run (main_analyse w args) h = (Ok tt, h') /\
       In (EFit fresh dataset) (trace h') /\
       In (ESaveWorkflow (Workflow_fit fresh dataset) (Some out)) (trace h') /\
       wf_store h' !! out = Some (Workflow_fit fresh dataset)) /\
  (forall wp stored,
     Namespace.workflow_path args = Some wp ->
     wf_store h !! wp = Some stored ->
     exists h',
       run (main_transform w args) h = (Ok tt, h') /\
       In (ELoadWorkflow (Some wp)) (trace h') /\
       In (ETransform (rebind stored client) dataset) (trace h')).
Proof.
  intros Ha Hb Hp Hg client dataset fresh.
  split; [reflexivity|]. split; [reflexivity|]. split.
  - intros out Ho. eexists. split.
    + apply (main_analyse_run w args a b p f fs out h Ha Hb Hp Hg Ho).
    + split; [|split].
      * apply In_add_events. simpl. auto 20.
      * apply In_add_events. simpl. auto 20.
      * simpl. apply lookup_insert_eq.
  - intros wp stored Hw Hs. eexists. split.
    + apply (main_transform_run w args a b p f fs wp stored h
               Ha Hb Hp Hg Hw Hs).
    + split; apply In_add_events; simpl; auto 20.
Qed.

(** The analyse task on [bucket], then the transform task on what it
    left behind. *)
Lemma criteo_workflow_lifecycle_witness :
  wf_store analysed !! "gs://bucket/workflow" =
    Some (Workflow_fit (create_criteo_nvt_workflow demo_client)
            demo_dataset) /\
  exists h',
    run (main_transform bucket (parse_args transform_argv)) analysed =
      (Ok tt, h') /\
    In (ELoadWorkflow (Some "gs://bucket/workflow")) (trace h') /\
    In (ETransform
          (rebind (Workflow_fit (create_criteo_nvt_workflow demo_client)
                     demo_dataset) demo_client) demo_dataset)
       (trace h').
Proof.
  split; [vm_compute; reflexivity|].
  assert (Ha : fraction_of_device bucket (float_lit 60 100) 10307921510)
    by (eexists; split; vm_compute; reflexivity).
  assert (Hb : fraction_of_device bucket (float_lit 90 100) 15461882265)
    by (eexists; split; vm_compute; reflexivity).
  apply (proj2 (proj2 (proj2
    (criteo_workflow_lifecycle bucket (parse_args transform_argv)
       10307921510 15461882265 "gs://bucket/data"
       "bucket/data/part_0.parquet" ["bucket/data/part_1.parquet"]
       analysed Ha Hb eq_refl eq_refl)))
    "gs://bucket/workflow"
    (Workflow_fit (create_criteo_nvt_workflow demo_client) demo_dataset)
    eq_refl).
  vm_compute. reflexivity.
Defined.

(** ** The transform task *)

(** C1 (the code departs from it).  [transform_dataset] calls
    [workflow.transform] and returns the dataset it was given, not the
    handle the call produced; [main_transform] therefore writes the input
    dataset, which carries no transformation, to [--output_path]. *)
Theorem main_transform_writes_input_dataset w args a b p f fs wp stored h :
  fraction_of_device w (Namespace.device_limit_frac args) a ->
  fraction_of_device w (Namespace.device_pool_frac args) b ->
  Namespace.parquet_data_path args = Some p ->
  glob w (os_path_join p "*.parquet") = Ok (f :: fs) ->
  Namespace.workflow_path args = Some wp ->
  wf_store h !! wp = Some stored ->
  let client := cluster_client args a b in
  let dataset := parquet_handle (f :: fs) (Namespace.frac_size args) client in
  let workflow := rebind stored client in
  run (transform_dataset dataset workflow) h =
    (Ok dataset, add_events h [ETransform workflow dataset]) /\
  exists evs,
    run (main_transform w args) h = (Ok tt, add_events h evs) /\
    In (ETransform workflow dataset) evs /\
    In (EToParquet dataset (Namespace.output_path args) None None) evs /\
    (forall d o s n, In (EToParquet d o s n) evs ->
       d = dataset /\ ds_applied d = [] /\
       d <> Workflow_transform workflow dataset).
Proof.
  intros Ha Hb Hp Hg Hw Hs client dataset workflow.
  split; [reflexivity|].
  eexists. split.
  - apply (main_transform_run w args a b p f fs wp stored h
             Ha Hb Hp Hg Hw Hs).
  - split; [simpl; auto 20|]. split; [simpl; auto 20|].
    intros d o s n Hin. simpl in Hin.
    repeat (destruct Hin as [Hin|Hin]; [try discriminate|]);
      [|contradiction].
    injection Hin as <- _ _ _.
    split; [reflexivity|]. split; [reflexivity|].
    intros E. apply (f_equal ds_applied) in E. simpl in E. discriminate.
Qed.

(** The transform task after the analyse task on [bucket]: the dataset
    written is the one read. *)
Lemma main_transform_writes_input_dataset_witness :
  exists evs,
    run (main_transform bucket (parse_args transform_argv)) analysed =
      (Ok tt, add_events analysed evs) /\
    In (ETransform demo_workflow demo_dataset) evs /\
    In (EToParquet demo_dataset (Some "gs://bucket/out") None None) evs /\
    (forall d o s n, In (EToParquet d o s n) evs ->
       d = demo_dataset /\ ds_applied d = [] /\
       d <> Workflow_transform demo_workflow demo_dataset).
Proof.
  assert (Ha : fraction_of_device bucket (float_lit 60 100) 10307921510)
    by (eexists; split; vm_compute; reflexivity).
  assert (Hb : fraction_of_device bucket (float_lit 90 100) 15461882265)
    by (eexists; split; vm_compute; reflexivity).
  assert (Hs : wf_store analysed !! "gs://bucket/workflow" =
               Some (Workflow_fit (create_criteo_nvt_workflow demo_client)
                       demo_dataset))
    by (vm_compute; reflexivity).
  apply (proj2 (main_transform_writes_input_dataset bucket
                  (parse_args transform_argv) 10307921510 15461882265
                  "gs://bucket/data" "bucket/data/part_0.parquet"
                  ["bucket/data/part_1.parquet"] "gs://bucket/workflow" _
                  analysed Ha Hb eq_refl eq_refl eq_refl Hs)).
Defined.

(** ** Shuffle names *)

Lemma member_name_not_None m : Some (member_name m) <> Some "None".
Proof. destruct m; discriminate. Qed.

Lemma convert_shuffle_None w out d files l h :
  convert_csv_to_parquet w out (Some d) files (Some "None") l h =
  (Ok tt, l, add_events h [EToParquet d out None (Some files)]).
Proof. reflexivity. Qed.

Lemma convert_shuffle_found w out d files s a l h :
  s <> "None" -> shuffle_attr w s = Some a ->
  convert_csv_to_parquet w out (Some d) files (Some s) l h =
  (Ok tt, l, add_events h [EToParquet d out (Some a) (Some files)]).
Proof.
  intros Hs Ha. unfold convert_csv_to_parquet.
  rewrite decide_False by congruence. proc. by rewrite Ha.
Qed.

Lemma convert_shuffle_missing w out d files s l h :
  s <> "None" -> shuffle_attr w s = None ->
  convert_csv_to_parquet w out (Some d) files (Some s) l h =
  (Ok tt, l,
   add_events h [EPrint "Shuffle method not available. Using default.";
                 EToParquet d out None (Some files)]).
Proof.
  intros Hs Ha. unfold convert_csv_to_parquet.
  rewrite decide_False by congruence. proc. rewrite Ha. proc. reflexivity.
Qed.

Lemma save_shuffle_None w out d l h :
  save_dataset w (Some d) out (Some "None") l h =
  (Ok tt, l, add_events h [EToParquet d out None None]).
Proof. reflexivity. Qed.

Lemma save_shuffle_found w out d s a l h :
  s <> "None" -> shuffle_attr w s = Some a ->
  save_dataset w (Some d) out (Some s) l h =
  (Ok tt, l, add_events h [EToParquet d out (Some a) None]).
Proof.
  intros Hs Ha. unfold save_dataset.
  rewrite decide_False by congruence. proc. by rewrite Ha.
Qed.

Lemma save_shuffle_missing w out d s l h :
  s <> "None" -> shuffle_attr w s = None ->
  save_dataset w (Some d) out (Some s) l h =
  (Ok tt, l,
   add_events h [EPrint "Shuffle method not available. Using default.";
                 EToParquet d out None None]).
Proof.
  intros Hs Ha. unfold save_dataset.
  rewrite decide_False by congruence. proc. rewrite Ha. proc. reflexivity.
Qed.

(** C3, amended.  For every string passed as [shuffle] to
    [convert_csv_to_parquet] or [save_dataset]: the name of a member of
    [Shuffle] has that member passed to the write; the string ['None'],
    and, after the diagnostic is printed, every string that names no
    attribute of the class [Shuffle], has the write performed with no
    shuffle. *)
Theorem shuffle_resolution w s d out files h :
  Shuffle_namespace (shuffle_attr w) ->
  (forall m, s = member_name m ->
     run (convert_csv_to_parquet w out (Some d) files (Some s)) h =
       (Ok tt, add_events h [EToParquet d out (Some (Member m)) (Some files)])
     /\
     run (save_dataset w (Some d) out (Some s)) h =
       (Ok tt, add_events h [EToParquet d out (Some (Member m)) None])) /\
  (s = "None" ->
     run (convert_csv_to_parquet w out (Some d) files (Some s)) h =
       (Ok tt, add_events h [EToParquet d out None (Some files)]) /\
     run (save_dataset w (Some d) out (Some s)) h =
       (Ok tt, add_events h [EToParquet d out None None])) /\
  (s <> "None" -> shuffle_attr w s = None ->
     run (convert_csv_to_parquet w out (Some d) files (Some s)) h =
       (Ok tt,
        add_events h [EPrint "Shuffle method not available. Using default.";
                      EToParquet d out None (Some files)]) /\
     run (save_dataset w (Some d) out (Some s)) h =
       (Ok tt,
        add_events h [EPrint "Shuffle method not available. Using default.";
                      EToParquet d out None None])).
Proof.
  intros [Hm _]. split; [|split].
  - intros m ->.
    assert (member_name m <> "None")
      by (intros E; apply (member_name_not_None m); by rewrite E).
    unfold run.
    rewrite (convert_shuffle_found w out d files _ _ tt h H (Hm m)).
    by rewrite (save_shuffle_found w out d _ _ tt h H (Hm m)).
  - intros ->. split; reflexivity.
  - intros Hs Ha. unfold run.
    rewrite (convert_shuffle_missing w out d files s tt h Hs Ha).
    by rewrite (save_shuffle_missing w out d s tt h Hs Ha).
Qed.

(** The member [PER_WORKER], the string ['None'] and the unknown name
    ['ROUND_ROBIN'] on [bucket]. *)
Lemma shuffle_resolution_witness :
  run (save_dataset bucket (Some demo_dataset) (Some "gs://bucket/out")
         (Some "PER_WORKER")) heap0 =
    (Ok tt,
     add_events heap0
       [EToParquet demo_dataset (Some "gs://bucket/out")
          (Some (Member PER_WORKER)) None]) /\
  run (save_dataset bucket (Some demo_dataset) (Some "gs://bucket/out")
         (Some "None")) heap0 =
    (Ok tt,
     add_events heap0
       [EToParquet demo_dataset (Some "gs://bucket/out") None None]) /\
  run (save_dataset bucket (Some demo_dataset) (Some "gs://bucket/out")
         (Some "ROUND_ROBIN")) heap0 =
    (Ok tt,
     add_events heap0
       [EPrint "Shuffle method not available. Using default.";
        EToParquet demo_dataset (Some "gs://bucket/out") None None]).
Proof.
  split; [|split].
  - apply (proj1 (shuffle_resolution bucket "PER_WORKER" demo_dataset
                    (Some "gs://bucket/out") None heap0
                    Shuffle_getattr_namespace) PER_WORKER eq_refl).
  - apply (proj1 (proj2 (shuffle_resolution bucket "None" demo_dataset
                           (Some "gs://bucket/out") None heap0
                           Shuffle_getattr_namespace)) eq_refl).
  - apply (proj2 (proj2 (shuffle_resolution bucket "ROUND_ROBIN" demo_dataset
                           (Some "gs://bucket/out") None heap0
                           Shuffle_getattr_namespace))).
    + discriminate.
    + reflexivity.
Defined.

(** C3 as stated fails on a string that names an attribute of the class
    which is not a member: ['__name__'] is no member of [Shuffle], and
    both functions hand the attribute found to the write instead of
    writing with no shuffle. *)
Lemma shuffle_class_attribute_passed :
  (forall m, "__name__" <> member_name m) /\
  run (save_dataset bucket (Some demo_dataset) (Some "gs://bucket/out")
         (Some "__name__")) heap0 =
    (Ok tt,
     add_events heap0
       [EToParquet demo_dataset (Some "gs://bucket/out")
          (Some (OtherAttr "__name__")) None]) /\
  run (convert_csv_to_parquet bucket (Some "gs://bucket/out")
         (Some demo_dataset) (Some 8) (Some "__name__")) heap0 =
    (Ok tt,
     add_events heap0
       [EToParquet demo_dataset (Some "gs://bucket/out")
          (Some (OtherAttr "__name__")) (Some (Some 8))]) /\
  run (save_dataset bucket (Some demo_dataset) (Some "gs://bucket/out")
         (Some "__name__")) heap0 <>
    (Ok tt,
     add_events heap0
       [EToParquet demo_dataset (Some "gs://bucket/out") None None]).
Proof.
  split; [intros []; discriminate|].
  split; [reflexivity|]. split; [reflexivity|].
  vm_compute. discriminate.
Qed.

(** ** Path resolution *)

Lemma resolve_path_file w rec_symbol p vp h :
  isfile w p = Ok true ->
  resolve_path w rec_symbol p vp h =
  (Ok tt, (vp ++ [p])%list, add_events h [EIsFile p]).
Proof. intros Hf. unfold resolve_path. proc. by rewrite Hf. Qed.

Lemma resolve_path_glob_raises w rec_symbol p m vp h :
  isfile w p = Ok false ->
  glob w (os_path_join p rec_symbol) = Raise (FileNotFoundError m) ->
  resolve_path w rec_symbol p vp h =
  (Ok tt, vp,
   add_events h [EIsFile p; EGlob (os_path_join p rec_symbol);
                 EPrint m; EPrint "Incorrect path: {path}."]).
Proof.
  intros Hf Hg. unfold resolve_path. proc. rewrite Hf. proc. rewrite Hg.
  proc. reflexivity.
Qed.

Lemma resolve_path_glob_denied w rec_symbol p m vp h :
  isfile w p = Ok false ->
  glob w (os_path_join p rec_symbol) = Raise (OSError m) ->
  resolve_path w rec_symbol p vp h =
  (Ok tt, vp,
   add_events h [EIsFile p; EGlob (os_path_join p rec_symbol);
                 EPrint m; EPrint "Verify access to the bucket."]).
Proof.
  intros Hf Hg. unfold resolve_path. proc. rewrite Hf. proc. rewrite Hg.
  proc. reflexivity.
Qed.

(** The [return] in the loop body ends the function on the first path:
    the paths after it play no part. *)
Lemma create_csv_dataset_first_path_only w p rest sep recursive dt frac
    client l h :
  create_csv_dataset w (Some (p :: rest)) sep recursive dt frac client l h =
  create_csv_dataset w (Some [p]) sep recursive dt frac client l h.
Proof.
  unfold create_csv_dataset, call. simpl for_. unfold bind.
  destruct (resolve_path w _ p [] h) as [[[[]|e] vp] h']; reflexivity.
Qed.

(** C6 (the code departs from it).  A first path that is a single file
    is added as it is, and the function returns at once: whatever
    follows in the list, file or directory, is never looked at and
    contributes nothing to the dataset. *)
Theorem create_csv_dataset_file_then_stop w p rest sep recursive dt frac
    client h :
  isfile w p = Ok true ->
  run (create_csv_dataset w (Some (p :: rest)) sep recursive dt frac client)
    h =
  (Ok (Some (csv_handle [p] sep dt frac client)),
   add_events h [EIsFile p; EDataset (csv_handle [p] sep dt frac client)]).
Proof.
  intros Hf. unfold run. rewrite create_csv_dataset_first_path_only.
  unfold create_csv_dataset, call. simpl for_. unfold bind at 1 2.
  rewrite (resolve_path_file w _ p [] h Hf). proc. reflexivity.
Qed.

(** A file followed by a directory of two files on [bucket]: the
    directory is not expanded. *)
Lemma create_csv_dataset_file_then_stop_witness :
  run (create_csv_dataset bucket
         (Some ["gs://bucket/day_0.csv"; "gs://bucket/more"]) (Some ",")
         false get_criteo_col_dtypes (float_lit 10 100) demo_client) heap0 =
  (Ok (Some (csv_handle ["gs://bucket/day_0.csv"] (Some ",")
               get_criteo_col_dtypes (float_lit 10 100) demo_client)),
   add_events heap0
     [EIsFile "gs://bucket/day_0.csv";
      EDataset (csv_handle ["gs://bucket/day_0.csv"] (Some ",")
                  get_criteo_col_dtypes (float_lit 10 100) demo_client)]) /\
  glob bucket (os_path_join "gs://bucket/more" "*") =
    Ok ["bucket/more/day_1.csv"; "bucket/more/day_2.csv"] /\
  isfile bucket "bucket/more/day_1.csv" = Ok true.
Proof.
  split; [|split; reflexivity].
  apply (create_csv_dataset_file_then_stop bucket "gs://bucket/day_0.csv"
           ["gs://bucket/more"] (Some ",") false get_criteo_col_dtypes
           (float_lit 10 100) demo_client heap0).
  reflexivity.
Defined.

(** C2 (the code departs from it).  When the listing of the first path
    raises a missing-file or an access error, the diagnostic is printed and
    the path is skipped, and the function returns at once with the
    dataset of no file: the remaining paths are not resolved, whatever
    they are. *)
Theorem create_csv_dataset_error_then_stop w p rest m e diag sep
    (recursive : bool) dt frac client h :
  isfile w p = Ok false ->
  glob w (os_path_join p (if recursive then "**" else "*")) = Raise e ->
  (e = FileNotFoundError m /\ diag = "Incorrect path: {path}.") \/
  (e = OSError m /\ diag = "Verify access to the bucket.") ->
  run (create_csv_dataset w (Some (p :: rest)) sep recursive dt frac client)
    h =
  (Ok (Some (csv_handle [] sep dt frac client)),
   add_events h
     [EIsFile p; EGlob (os_path_join p (if recursive then "**" else "*"));
      EPrint m; EPrint diag;
      EDataset (csv_handle [] sep dt frac client)]).
Proof.
  intros Hf Hg He. unfold run. rewrite create_csv_dataset_first_path_only.
  unfold create_csv_dataset, call. simpl for_. unfold bind at 1 2.
  destruct He as [[-> ->]|[-> ->]].
  - rewrite (resolve_path_glob_raises w _ p m [] h Hf Hg). proc.
    reflexivity.
  - rewrite (resolve_path_glob_denied w _ p m [] h Hf Hg). proc.
    reflexivity.
Qed.

(** A missing path followed by an existing file on [bucket]: the file
    is not in the dataset. *)
Lemma create_csv_dataset_error_then_stop_witness :
  run (create_csv_dataset bucket
         (Some ["gs://bucket/missing"; "gs://bucket/day_0.csv"]) (Some ",")
         false get_criteo_col_dtypes (float_lit 10 100) demo_client) heap0 =
  (Ok (Some (csv_handle [] (Some ",") get_criteo_col_dtypes
               (float_lit 10 100) demo_client)),
   add_events heap0
     [EIsFile "gs://bucket/missing"; EGlob "gs://bucket/missing/*";
      EPrint "bucket/missing"; EPrint "Incorrect path: {path}.";
      EDataset (csv_handle [] (Some ",") get_criteo_col_dtypes
                  (float_lit 10 100) demo_client)]) /\
  isfile bucket "gs://bucket/day_0.csv" = Ok true.
Proof.
  split; [|reflexivity].
  apply (create_csv_dataset_error_then_stop bucket "gs://bucket/missing"
           ["gs://bucket/day_0.csv"] "bucket/missing"
           (FileNotFoundError "bucket/missing") "Incorrect path: {path}."
           (Some ",") false get_criteo_col_dtypes (float_lit 10 100)
           demo_client heap0).
  - reflexivity.
  - reflexivity.
  - left. split; reflexivity.
Defined.

(** ** Argument parsing *)

Lemma fold_store_keep {A} (proj : Namespace.t -> A) (d : string) :
  (forall ns f, dest f <> d -> proj (store ns f) = proj ns) ->
  forall argv ns, omitted d argv ->
    proj (fold_left store argv ns) = proj ns.
Proof.
  intros Hkeep argv. induction argv as [|f argv IH]; intros ns Hall.
  - reflexivity.
  - inversion Hall as [|? ? Hf Hrest]; subst. simpl.
    rewrite (IH _ Hrest). by apply Hkeep.
Qed.

Lemma parse_args_last {A} (proj : Namespace.t -> A) (d : string) f v :
  (forall ns g, dest g <> d -> proj (store ns g) = proj ns) ->
  (forall ns, proj (store ns f) = v) ->
  forall pre post, omitted d post ->
    proj (parse_args (pre ++ f :: post)) = v.
Proof.
  intros Hkeep Hset pre post Hpost. unfold parse_args.
  rewrite fold_left_app. simpl.
  rewrite (fold_store_keep proj d Hkeep _ _ Hpost). apply Hset.
Qed.

(** A store to another destination leaves a field as it is. *)
Ltac store_keeps := intros [] []; simpl; intros ?; congruence.

(** A store to the destination sets the field. *)
Ltac store_sets := intros []; reflexivity.

(** C7. When its flag is omitted, the parsed arguments have
    [frac_size = 0.10], [memory_limit = 100000000000], which is 100e9,
    [device_limit_frac = 0.60] and [device_pool_frac = 0.90], as doubles;
    when the flag is given, the field is the value supplied by its last
    occurrence. *)
Theorem parse_args_defaults argv :
  (omitted "frac_size" argv ->
     Namespace.frac_size (parse_args argv) = float_lit 10 100) /\
  (omitted "memory_limit" argv ->
     Namespace.memory_limit (parse_args argv) = 100 * 10 ^ 9) /\
  (omitted "device_limit_frac" argv ->
     Namespace.device_limit_frac (parse_args argv) = float_lit 60 100) /\
  (omitted "device_pool_frac" argv ->
     Namespace.device_pool_frac (parse_args argv) = float_lit 90 100) /\
  (forall pre v post, argv = (pre ++ F_frac_size v :: post)%list ->
     omitted "frac_size" post ->
     Namespace.frac_size (parse_args argv) = v) /\
  (forall pre v post, argv = (pre ++ F_memory_limit v :: post)%list ->
     omitted "memory_limit" post ->
     Namespace.memory_limit (parse_args argv) = v) /\
  (forall pre v post, argv = (pre ++ F_device_limit_frac v :: post)%list ->
     omitted "device_limit_frac" post ->
     Namespace.device_limit_frac (parse_args argv) = v) /\
  (forall pre v post, argv = (pre ++ F_device_pool_frac v :: post)%list ->
     omitted "device_pool_frac" post ->
     Namespace.device_pool_frac (parse_args argv) = v).
Proof.
  repeat split.
  - intros H. unfold parse_args.
    rewrite (fold_store_keep Namespace.frac_size "frac_size"); [done| |done].
    store_keeps.
  - intros H. unfold parse_args.
    rewrite (fold_store_keep Namespace.memory_limit "memory_limit");
      [done| |done].
    store_keeps.
  - intros H. unfold parse_args.
    rewrite (fold_store_keep Namespace.device_limit_frac "device_limit_frac");
      [done| |done].
    store_keeps.
  - intros H. unfold parse_args.
    rewrite (fold_store_keep Namespace.device_pool_frac "device_pool_frac");
      [done| |done].
    store_keeps.
  - intros pre v post -> H.
    apply (parse_args_last Namespace.frac_size "frac_size");
      [store_keeps|store_sets|done].
  - intros pre v post -> H.
    apply (parse_args_last Namespace.memory_limit "memory_limit");
      [store_keeps|store_sets|done].
  - intros pre v post -> H.
    apply (parse_args_last Namespace.device_limit_frac "device_limit_frac");
      [store_keeps|store_sets|done].
  - intros pre v post -> H.
    apply (parse_args_last Namespace.device_pool_frac "device_pool_frac");
      [store_keeps|store_sets|done].
Qed.

(** The command line of the analyse task leaves the four flags out; a
    command line that gives [--frac_size] twice keeps the second value. *)
Lemma parse_args_defaults_witness :
  Namespace.frac_size (parse_args analyse_argv) =
    S754_finite false 7205759403792794 (-56) /\
  Namespace.memory_limit (parse_args analyse_argv) = 100000000000 /\
  Namespace.device_limit_frac (parse_args analyse_argv) =
    S754_finite false 5404319552844595 (-53) /\
  Namespace.device_pool_frac (parse_args analyse_argv) =
    S754_finite false 8106479329266893 (-53) /\
  Namespace.frac_size
    (parse_args [F_frac_size (float_lit 50 100); F_task "convert";
                 F_frac_size (float_lit 25 100); F_n_workers 2]) =
    float_lit 25 100.
Proof.
  assert (O : forall d, d <> "task" -> d <> "parquet_data_path" ->
                d <> "output_path" -> omitted d analyse_argv).
  { intros d ? ? ?. repeat constructor; simpl; congruence. }
  destruct (parse_args_defaults analyse_argv) as [A [B [C [D _]]]].
  split; [rewrite A; [vm_compute; reflexivity|apply O; discriminate]|].
  split; [rewrite B; [reflexivity|apply O; discriminate]|].
  split; [rewrite C; [vm_compute; reflexivity|apply O; discriminate]|].
  split; [rewrite D; [vm_compute; reflexivity|apply O; discriminate]|].
  apply (proj1 (proj2 (proj2 (proj2 (proj2 (parse_args_defaults _)))))
           [F_frac_size (float_lit 50 100); F_task "convert"]
           (float_lit 25 100) [F_n_workers 2] eq_refl).
  repeat constructor. discriminate.
Defined.

(** * Further properties *)

(** ** Listing a directory *)

Lemma listed_files_app w pre post :
  listed_files w (pre ++ post) =
  (listed_files w pre ++ listed_files w post)%list.
Proof.
  induction pre as [|i pre IH]; simpl; [reflexivity|].
  destruct (isfile w i) as [[]|]; simpl; by rewrite ?IH.
Qed.

Lemma listing_loop_answered w items : forall vp h,
  all_answered w items ->
  listing_loop w items vp h =
  (Ok None, (vp ++ listed_files w items)%list,
   add_events h (map EIsFile items)).
Proof.
  unfold listing_loop.
  induction items as [|i items IH]; intros vp h Hall.
  - simpl. unfold ret. by rewrite app_nil_r, add_events_nil.
  - inversion Hall as [|? ? [b Hb] Hrest]; subst.
    simpl for_. proc. rewrite Hb. simpl.
    destruct b; simpl; rewrite (IH _ _ Hrest), add_events_app; simpl;
      by rewrite <- ?app_assoc.
Qed.

Lemma listing_loop_raises w pre bad post e : forall vp h,
  all_answered w pre -> isfile w bad = Raise e ->
  listing_loop w (pre ++ bad :: post) vp h =
  (Raise e, (vp ++ listed_files w pre)%list,
   add_events h (map EIsFile pre ++ [EIsFile bad])).
Proof.
  unfold listing_loop.
  induction pre as [|i pre IH]; intros vp h Hall Hbad.
  - simpl for_. proc. rewrite Hbad. simpl. by rewrite app_nil_r.
  - inversion Hall as [|? ? [b Hb] Hrest]; subst.
    simpl app. simpl for_. proc. rewrite Hb. simpl.
    destruct b; simpl; rewrite (IH _ _ Hrest Hbad), add_events_app; simpl;
      by rewrite <- ?app_assoc.
Qed.

Lemma resolve_path_unfold w rec_symbol p vp h items :
  isfile w p = Ok false ->
  glob w (os_path_join p rec_symbol) = Ok items ->
  resolve_path w rec_symbol p vp h =
  match listing_loop w items vp
          (add_events h [EIsFile p; EGlob (os_path_join p rec_symbol)]) with
  | (Ok _, vp', h') => (Ok tt, vp', h')
  | (Raise e, vp', h') =>
      match path_diagnostic e with
      | Some diag =>
          (Ok tt, vp', add_events h' [EPrint (str_exn e); EPrint diag])
      | None => (Raise e, vp', h')
      end
  end.
Proof.
  intros Hf Hg. unfold resolve_path, listing_loop. proc.
  rewrite Hf. proc. rewrite Hg. proc.
  match goal with
  | |- context [for_ items ?b vp ?hh] =>
      destruct (for_ items b vp hh) as [[[r|e] vp'] h']
  end; [reflexivity|].
  destruct e; simpl; proc; reflexivity.
Qed.

Lemma run_inv {A} (c : Proc unit A) h r h' :
  run c h = (r, h') -> c tt h = (r, tt, h').
Proof.
  unfold run. destruct (c tt h) as [[r0 []] h0]. by intros [= -> ->].
Qed.

(** [create_csv_dataset] on a list that is not empty, by the outcome
    of resolving its first path. *)
Lemma create_csv_dataset_step w p rest sep (recursive : bool) dt frac client
    h :
  run (create_csv_dataset w (Some (p :: rest)) sep recursive dt frac client)
    h =
  match resolve_path w (if recursive then "**" else "*") p [] h with
  | (Ok _, vp, h') =>
      (Ok (Some (csv_handle vp sep dt frac client)),
       add_events h' [EDataset (csv_handle vp sep dt frac client)])
  | (Raise e, _, h') => (Raise e, h')
  end.
Proof.
  unfold run, create_csv_dataset, call. simpl for_. unfold bind at 1 2.
  destruct (resolve_path w _ p [] h) as [[[[]|e] vp] h']; reflexivity.
Qed.

(** When the first path is a directory whose listing succeeds and whose
    entries can all be examined, the dataset holds exactly the entries
    that are files, in the order of the listing, each behind ["gs://"];
    entries that are not files are left out. *)
Theorem create_csv_dataset_directory w p rest items sep (recursive : bool)
    dt frac client h :
  isfile w p = Ok false ->
  glob w (os_path_join p (if recursive then "**" else "*")) = Ok items ->
  all_answered w items ->
  run (create_csv_dataset w (Some (p :: rest)) sep recursive dt frac client)
    h =
  (Ok (Some (csv_handle (listed_files w items) sep dt frac client)),
   add_events h
     (EIsFile p :: EGlob (os_path_join p (if recursive then "**" else "*"))
      :: map EIsFile items ++
      [EDataset (csv_handle (listed_files w items) sep dt frac client)])).
Proof.
  intros Hf Hg Hall. rewrite create_csv_dataset_step.
  rewrite (resolve_path_unfold w _ p [] h items Hf Hg).
  rewrite (listing_loop_answered w items _ _ Hall).
  rewrite !add_events_app. reflexivity.
Qed.

(** The directory of two files on [bucket]. *)
Lemma create_csv_dataset_directory_witness :
  run (create_csv_dataset bucket (Some ["gs://bucket/more"]) (Some ",")
         false get_criteo_col_dtypes (float_lit 10 100) demo_client) heap0 =
  (Ok (Some (csv_handle
               ["gs://bucket/more/day_1.csv"; "gs://bucket/more/day_2.csv"]
               (Some ",") get_criteo_col_dtypes (float_lit 10 100)
               demo_client)),
   add_events heap0
     [EIsFile "gs://bucket/more"; EGlob "gs://bucket/more/*";
      EIsFile "bucket/more/day_1.csv"; EIsFile "bucket/more/day_2.csv";
      EDataset (csv_handle
                  ["gs://bucket/more/day_1.csv"; "gs://bucket/more/day_2.csv"]
                  (Some ",") get_criteo_col_dtypes (float_lit 10 100)
                  demo_client)]).
Proof.
  apply (create_csv_dataset_directory bucket "gs://bucket/more" []
           ["bucket/more/day_1.csv"; "bucket/more/day_2.csv"] (Some ",")
           false get_criteo_col_dtypes (float_lit 10 100) demo_client heap0).
  - reflexivity.
  - reflexivity.
  - repeat constructor; eexists; reflexivity.
Defined.

(** When examining an entry of the listing raises a missing-file or an
    access error, the entries before it that are files stay in the
    dataset, the entries after it are dropped without being examined, and
    the diagnostic is printed. *)
Theorem create_csv_dataset_partial_listing w p rest pre bad post e diag sep
    (recursive : bool) dt frac client h :
  isfile w p = Ok false ->
  glob w (os_path_join p (if recursive then "**" else "*")) =
    Ok (pre ++ bad :: post)%list ->
  all_answered w pre ->
  isfile w bad = Raise e ->
  path_diagnostic e = Some diag ->
  run (create_csv_dataset w (Some (p :: rest)) sep recursive dt frac client)
    h =
  (Ok (Some (csv_handle (listed_files w pre) sep dt frac client)),
   add_events h
     (EIsFile p :: EGlob (os_path_join p (if recursive then "**" else "*"))
      :: map EIsFile pre ++
      [EIsFile bad; EPrint (str_exn e); EPrint diag;
       EDataset (csv_handle (listed_files w pre) sep dt frac client)])).
Proof.
  intros Hf Hg Hall Hbad Hd. rewrite create_csv_dataset_step.
  rewrite (resolve_path_unfold w _ p [] h _ Hf Hg).
  rewrite (listing_loop_raises w pre bad post e _ _ Hall Hbad), Hd.
  rewrite !add_events_app. simpl. rewrite <- !app_assoc. reflexivity.
Qed.

(** A directory whose second entry cannot be examined: the third entry,
    a file, is lost. *)
Lemma create_csv_dataset_partial_listing_witness :
  run (create_csv_dataset locked_entry (Some ["gs://bucket/more"]) (Some ",")
         false get_criteo_col_dtypes (float_lit 10 100) demo_client) heap0 =
  (Ok (Some (csv_handle ["gs://bucket/more/day_1.csv"] (Some ",")
               get_criteo_col_dtypes (float_lit 10 100) demo_client)),
   add_events heap0
     [EIsFile "gs://bucket/more"; EGlob "gs://bucket/more/*";
      EIsFile "bucket/more/day_1.csv"; EIsFile "bucket/more/day_locked.csv";
      EPrint "Forbidden"; EPrint "Verify access to the bucket.";
      EDataset (csv_handle ["gs://bucket/more/day_1.csv"] (Some ",")
                  get_criteo_col_dtypes (float_lit 10 100) demo_client)]) /\
  isfile locked_entry "bucket/more/day_2.csv" = Ok true.
Proof.
  split; [|reflexivity].
  apply (create_csv_dataset_partial_listing locked_entry "gs://bucket/more"
           [] ["bucket/more/day_1.csv"] "bucket/more/day_locked.csv"
           ["bucket/more/day_2.csv"] (OSError "Forbidden")
           "Verify access to the bucket." (Some ",") false
           get_criteo_col_dtypes (float_lit 10 100) demo_client heap0).
  - reflexivity.
  - reflexivity.
  - repeat constructor; eexists; reflexivity.
  - reflexivity.
  - reflexivity.
Defined.

(** An exception that is neither a [FileNotFoundError] nor another
    [OSError] is not handled: raised by the test of the first path or by
    its listing, it leaves [create_csv_dataset], and no dataset is
    built. *)
Theorem create_csv_dataset_unhandled w p rest e sep (recursive : bool) dt frac
    client h :
  path_diagnostic e = None ->
  (isfile w p = Raise e ->
   run (create_csv_dataset w (Some (p :: rest)) sep recursive dt frac client)
     h = (Raise e, add_events h [EIsFile p])) /\
  (isfile w p = Ok false ->
   glob w (os_path_join p (if recursive then "**" else "*")) = Raise e ->
   run (create_csv_dataset w (Some (p :: rest)) sep recursive dt frac client)
     h =
   (Raise e,
    add_events h
      [EIsFile p; EGlob (os_path_join p (if recursive then "**" else "*"))])).
Proof.
  intros Hd. split.
  - intros Hf. rewrite create_csv_dataset_step.
    unfold resolve_path. proc. rewrite Hf.
    destruct e; simpl in *; try discriminate; reflexivity.
  - intros Hf Hg. rewrite create_csv_dataset_step.
    unfold resolve_path. proc. rewrite Hf. proc. rewrite Hg.
    destruct e; simpl in *; try discriminate;
      rewrite ?add_events_app; reflexivity.
Qed.

(** A store client that raises [ValueError]. *)
Lemma create_csv_dataset_unhandled_witness :
  run (create_csv_dataset broken_store (Some ["gs://Bad_Bucket/x.csv"])
         (Some ",") false get_criteo_col_dtypes (float_lit 10 100)
         demo_client) heap0 =
  (Raise (ValueError "Invalid bucket name"),
   add_events heap0 [EIsFile "gs://Bad_Bucket/x.csv"]).
Proof.
  apply (proj1 (create_csv_dataset_unhandled broken_store
                  "gs://Bad_Bucket/x.csv" []
                  (ValueError "Invalid bucket name") (Some ",") false
                  get_criteo_col_dtypes (float_lit 10 100) demo_client heap0
                  eq_refl)).
  reflexivity.
Defined.

(** ** The convert task *)

(** The convert task on a first path that is a file: the cluster is
    created, the dataset of that one file is built with the Criteo schema
    and the given separator, the shuffle diagnostic is printed (the
    task passes no shuffle, and the lookup of [None] fails), and the
    dataset is written once, to [--output_path], in [--output_files]
    files, with no shuffle. *)
Theorem main_convert_run w args a b p rest h :
  fraction_of_device w (Namespace.device_limit_frac args) a ->
  fraction_of_device w (Namespace.device_pool_frac args) b ->
  Namespace.csv_data_path args = Some (p :: rest) ->
  isfile w p = Ok true ->
  let client := cluster_client args a b in
  let dataset :=
    csv_handle [p] (Namespace.sep args) get_criteo_col_dtypes
      (Namespace.frac_size args) client in
  run (main_convert w args) h =
  (Ok tt,
   add_events h
     [ELog "Creating cluster" None; EDeviceMemSize; ECluster client;
      ELog "Creating CSV dataset" None; EIsFile p; EDataset dataset;
      ELog "Converting CSV to Parquet" None;
      EPrint "Shuffle method not available. Using default.";
      EToParquet dataset (Namespace.output_path args) None
        (Some (Namespace.output_files args))]).
Proof.
  intros Ha Hb Hp Hf. cbv zeta.
  unfold main_convert. proc.
  rewrite (fraction_of_device_cluster w args a b _ _ Ha Hb), Hp.
  erewrite (run_inv (create_csv_dataset w _ _ _ _ _ _));
    [|rewrite create_csv_dataset_step, (resolve_path_file w _ p [] _ Hf);
      reflexivity].
  unfold convert_csv_to_parquet. simpl. proc.
  rewrite ?add_events_app. reflexivity.
Qed.

(** The convert command line on [bucket]. *)
Lemma main_convert_run_witness :
  run (main_convert bucket (parse_args convert_argv)) heap0 =
  (Ok tt,
   add_events heap0
     [ELog "Creating cluster" None; EDeviceMemSize; ECluster demo_client;
      ELog "Creating CSV dataset" None; EIsFile "gs://bucket/day_0.csv";
      EDataset (csv_handle ["gs://bucket/day_0.csv"] (Some ",")
                  get_criteo_col_dtypes (float_lit 10 100) demo_client);
      ELog "Converting CSV to Parquet" None;
      EPrint "Shuffle method not available. Using default.";
      EToParquet (csv_handle ["gs://bucket/day_0.csv"] (Some ",")
                    get_criteo_col_dtypes (float_lit 10 100) demo_client)
        (Some "gs://bucket/parquet") None (Some (Some 8))]).
Proof.
  apply (main_convert_run bucket (parse_args convert_argv) 10307921510
           15461882265 "gs://bucket/day_0.csv" ["gs://bucket/more"] heap0).
  - eexists. split; vm_compute; reflexivity.
  - eexists. split; vm_compute; reflexivity.
  - reflexivity.
  - reflexivity.
Defined.

(** Without a path the convert task still creates the cluster and then
    fails, writing nothing: with [--csv_data_path] left out the loop
    over [None] raises [TypeError]; with an empty list
    [create_csv_dataset] returns [None], and the write on it raises
    [AttributeError] after the shuffle diagnostic has been printed. *)
Theorem main_convert_no_path w args a b h :
  fraction_of_device w (Namespace.device_limit_frac args) a ->
  fraction_of_device w (Namespace.device_pool_frac args) b ->
  let client := cluster_client args a b in
  (Namespace.csv_data_path args = None ->
   run (main_convert w args) h =
   (Raise (TypeError "'NoneType' object is not iterable"),
    add_events h
      [ELog "Creating cluster" None; EDeviceMemSize; ECluster client;
       ELog "Creating CSV dataset" None])) /\
  (Namespace.csv_data_path args = Some [] ->
   run (main_convert w args) h =
   (Raise (AttributeError "'NoneType' object has no attribute 'to_parquet'"),
    add_events h
      [ELog "Creating cluster" None; EDeviceMemSize; ECluster client;
       ELog "Creating CSV dataset" None;
       ELog "Converting CSV to Parquet" None;
       EPrint "Shuffle method not available. Using default."])).
Proof.
  intros Ha Hb client. split; intros Hp; unfold main_convert; proc;
    rewrite (fraction_of_device_cluster w args a b _ _ Ha Hb), Hp;
    unfold create_csv_dataset, convert_csv_to_parquet; simpl; proc;
    rewrite ?add_events_app; reflexivity.
Qed.

(** The convert task on [bucket] with [--csv_data_path] left out. *)
Lemma main_convert_no_path_witness :
  run (main_convert bucket (parse_args [F_task "convert"])) heap0 =
  (Raise (TypeError "'NoneType' object is not iterable"),
   add_events heap0
     [ELog "Creating cluster" None; EDeviceMemSize; ECluster demo_client;
      ELog "Creating CSV dataset" None]).
Proof.
  apply (proj1 (main_convert_no_path bucket (parse_args [F_task "convert"])
                  10307921510 15461882265 heap0
                  (ex_intro _ _ (conj eq_refl eq_refl))
                  (ex_intro _ _ (conj eq_refl eq_refl)))).
  reflexivity.
Defined.

(** ** Shuffle names, once more *)


(** ** Cluster sizing, once more *)

Lemma create_cluster_unfold w nw dlf dpf ml l h :
  create_cluster w nw dlf dpf ml l h =
  match device_fractions w dlf dpf with
  | Ok (a, b) =>
      let client := {| cl_n_workers := nw; cl_device_memory_limit := a;
                       cl_rmm_pool_size := b / 256 * 256;
                       cl_memory_limit := ml |} in
      (Ok client, l, add_events h [EDeviceMemSize; ECluster client])
  | Raise e => (Raise e, l, add_events h [EDeviceMemSize])
  end.
Proof.
  unfold create_cluster, device_fractions. proc.
  destruct (fmul_int dlf (device_mem_size w)) as [x|e]; [|reflexivity].
  destruct (int_of_float x) as [a|e]; [|reflexivity].
  destruct (fmul_int dpf (device_mem_size w)) as [y|e]; [|reflexivity].
  destruct (int_of_float y) as [b|e]; [|reflexivity].
  simpl. by rewrite add_events_app.
Qed.

(** A fraction whose product with the device size cannot be converted
    to an integer (NaN, an infinity) ends each of the three tasks with
    the conversion error, after the device query and before a cluster
    is created or the store is touched. *)
Theorem main_bad_fraction w args e h :
  known_task args ->
  device_fractions w (Namespace.device_limit_frac args)
    (Namespace.device_pool_frac args) = Raise e ->
  run (main w args) h =
  (Raise e,
   add_events (add_ticks h 1)
     [ELog "Timing task" None; ELog "Creating cluster" None;
      EDeviceMemSize]).
Proof.
  intros Ht He. unfold main, time_time.
  destruct Ht as [Ht|[Ht|Ht]]; rewrite Ht;
    [ rewrite decide_True by reflexivity; unfold main_convert
    | rewrite decide_False by discriminate;
      rewrite decide_True by reflexivity; unfold main_analyse
    | rewrite !decide_False by discriminate;
      rewrite decide_True by reflexivity; unfold main_transform ];
    proc; rewrite create_cluster_unfold, He; rewrite ?add_events_app;
    reflexivity.
Qed.

(** The transform task with [--device_limit_frac nan]. *)
Lemma main_bad_fraction_witness :
  run (program bucket (transform_argv ++ [F_device_limit_frac S754_nan]))
    analysed =
  (Raise (ValueError "cannot convert float NaN to integer"),
   add_events (add_ticks analysed 1)
     [ELog "Timing task" None; ELog "Creating cluster" None;
      EDeviceMemSize]).
Proof.
  apply (main_bad_fraction bucket
           (parse_args (transform_argv ++ [F_device_limit_frac S754_nan]))
           (ValueError "cannot convert float NaN to integer") analysed).
  - right. right. reflexivity.
  - vm_compute. reflexivity.
Defined.

(** Whenever [create_cluster] returns, for fractions of either sign, the
    RMM pool size is a multiple of 256 that lies in the 256 integers
    ending at [int(device_pool_frac * s)], and the only events are the
    device query and the creation of the cluster returned. *)
Theorem create_cluster_returns w nw dlf dpf ml h client h' :
  run (create_cluster w nw dlf dpf ml) h = (Ok client, h') ->
  exists a b,
    device_fractions w dlf dpf = Ok (a, b) /\
    cl_device_memory_limit client = a /\
    (256 | cl_rmm_pool_size client) /\
    b - 256 < cl_rmm_pool_size client <= b /\
    cl_n_workers client = nw /\ cl_memory_limit client = ml /\
    h' = add_events h [EDeviceMemSize; ECluster client].
Proof.
  unfold run. rewrite create_cluster_unfold.
  destruct (device_fractions w dlf dpf) as [[a b]|e]; [|discriminate].
  simpl. intros [= <- <-]. exists a, b. simpl.
  destruct (floor_to_256 b) as [D [Le _]].
  repeat split; try assumption.
  pose proof (Z.mod_pos_bound b 256). pose proof (Z.div_mod b 256). lia.
Qed.

(** A negative pool fraction on the 3-byte device: the pool size is
    -256. *)
Lemma create_cluster_returns_witness :
  run (create_cluster tiny_device None (float_lit 60 100) minus_half
         100000000000) heap0 =
    (Ok tiny_client,
     add_events heap0 [EDeviceMemSize; ECluster tiny_client]) /\
  exists a b,
    device_fractions tiny_device (float_lit 60 100) minus_half =
      Ok (a, b) /\
    cl_device_memory_limit tiny_client = a /\
    (256 | cl_rmm_pool_size tiny_client) /\
    b - 256 < cl_rmm_pool_size tiny_client <= b /\
    cl_n_workers tiny_client = None /\
    cl_memory_limit tiny_client = 100000000000 /\
    add_events heap0 [EDeviceMemSize; ECluster tiny_client] =
    add_events heap0 [EDeviceMemSize; ECluster tiny_client].
Proof.
  assert (E : run (create_cluster tiny_device None (float_lit 60 100)
                     minus_half 100000000000) heap0 =
              (Ok tiny_client,
               add_events heap0 [EDeviceMemSize; ECluster tiny_client]))
    by (vm_compute; reflexivity).
  split; [exact E|].
  apply (create_cluster_returns tiny_device None (float_lit 60 100)
           minus_half 100000000000 heap0 tiny_client _ E).
Defined.

(** For a product that is finite and negative, the device memory limit
    is the product rounded toward zero: minus the floor of its absolute
    value, which is the floor of the product or one more. *)
Theorem create_cluster_rounds_toward_zero w nw dlf dpf ml h client h' x :
  run (create_cluster w nw dlf dpf ml) h = (Ok client, h') ->
  fmul_int dlf (device_mem_size w) = Ok x ->
  finite_nonneg x = false ->
  exists f g,
    floor_of_float x = Some f /\
    floor_of_float (SFopp x) = Some g /\
    cl_device_memory_limit client = - g /\
    f <= cl_device_memory_limit client <= f + 1.
Proof.
  unfold run. rewrite create_cluster_unfold. unfold device_fractions.
  intros Hrun Hx Hneg. rewrite Hx in Hrun.
  destruct x as [s|s| |s m e]; simpl in *; try discriminate.
  destruct s; simpl in *; [|discriminate].
  destruct (0 <=? e) eqn:He; simpl in Hrun.
  - destruct (fmul_int dpf (device_mem_size w)) as [y|]; [|discriminate].
    destruct (int_of_float y); [|discriminate].
    injection Hrun as <- _. simpl.
    eexists _, _. split; [reflexivity|]. split; [reflexivity|]. lia.
  - destruct (fmul_int dpf (device_mem_size w)) as [y|]; [|discriminate].
    destruct (int_of_float y); [|discriminate].
    injection Hrun as <- _. simpl.
    apply Z.leb_gt in He.
    assert (Hp : 0 < 2 ^ (- e)) by (apply Z.pow_pos_nonneg; lia).
    eexists _, _. split; [reflexivity|]. split; [reflexivity|].
    change (Z.neg m) with (- Z.pos m).
    rewrite Z.quot_opp_l by lia.
    rewrite Z.quot_div_nonneg by lia.
    split; [reflexivity|].
    pose proof (Z.div_mod (Z.pos m) (2 ^ (- e))).
    pose proof (Z.mod_pos_bound (Z.pos m) (2 ^ (- e)) Hp).
    pose proof (Z.div_mod (- Z.pos m) (2 ^ (- e))).
    pose proof (Z.mod_pos_bound (- Z.pos m) (2 ^ (- e)) Hp).
    nia.
Qed.

(** The fraction -0.5 on the 3-byte device: -1.5 becomes -1. *)
Lemma create_cluster_rounds_toward_zero_witness :
  exists f g,
    floor_of_float (S754_finite true 6755399441055744 (-52)) = Some f /\
    floor_of_float (SFopp (S754_finite true 6755399441055744 (-52))) =
      Some g /\
    -1 = - g /\ f <= -1 <= f + 1.
Proof.
  apply (create_cluster_rounds_toward_zero tiny_device None minus_half
           (float_lit 90 100) 100000000000 heap0
           {| cl_n_workers := None; cl_device_memory_limit := -1;
              cl_rmm_pool_size := 0; cl_memory_limit := 100000000000 |}
           (add_events heap0
              [EDeviceMemSize;
               ECluster {| cl_n_workers := None;
                           cl_device_memory_limit := -1;
                           cl_rmm_pool_size := 0;
                           cl_memory_limit := 100000000000 |}])
           (S754_finite true 6755399441055744 (-52)));
    vm_compute; reflexivity.
Defined.

(** ** The Parquet tasks, once more *)

(** The analyse and the transform task on a directory that cannot be
    listed: the cluster is created first; with [--parquet_data_path]
    left out the path join raises [TypeError] and the store is not
    touched; when the listing itself raises, of whatever class, the
    exception ends the program, there being no handler.  In both cases
    no dataset is built and nothing is fitted, loaded or written. *)
Theorem main_parquet_task_unlisted w args a b h :
  Namespace.task args = Some "analyse" \/
  Namespace.task args = Some "transform" ->
  fraction_of_device w (Namespace.device_limit_frac args) a ->
  fraction_of_device w (Namespace.device_pool_frac args) b ->
  (Namespace.parquet_data_path args = None ->
   run (main w args) h =
   (Raise (TypeError "expected str, bytes or os.PathLike object"),
    add_events (add_ticks h 1)
      [ELog "Timing task" None; ELog "Creating cluster" None;
       EDeviceMemSize; ECluster (cluster_client args a b);
       ELog "Creating Parquet dataset" None])) /\
  (forall p e,
   Namespace.parquet_data_path args = Some p ->
   glob w (os_path_join p "*.parquet") = Raise e ->
   run (main w args) h =
   (Raise e,
    add_events (add_ticks h 1)
      [ELog "Timing task" None; ELog "Creating cluster" None;
       EDeviceMemSize; ECluster (cluster_client args a b);
       ELog "Creating Parquet dataset" None;
       EGlob (os_path_join p "*.parquet")])).
Proof.
  intros Ht Ha Hb. split; [intros Hp|intros p e Hp Hg];
    unfold main, time_time;
    (destruct Ht as [Ht|Ht]; rewrite Ht;
     [ rewrite decide_False by discriminate;
       rewrite decide_True by reflexivity; unfold main_analyse
     | rewrite !decide_False by discriminate;
       rewrite decide_True by reflexivity; unfold main_transform ]);
    proc; rewrite (fraction_of_device_cluster w args a b _ _ Ha Hb), Hp;
    unfold create_parquet_dataset; proc; rewrite ?Hg;
    rewrite ?add_events_app; reflexivity.
Qed.

(** The transform task on [bucket] without [--parquet_data_path], and
    the analyse task on a store that raises [ValueError]. *)
Lemma main_parquet_task_unlisted_witness :
  run (program bucket [F_task "transform"]) heap0 =
    (Raise (TypeError "expected str, bytes or os.PathLike object"),
     add_events (add_ticks heap0 1)
       [ELog "Timing task" None; ELog "Creating cluster" None;
        EDeviceMemSize; ECluster demo_client;
        ELog "Creating Parquet dataset" None]) /\
  run (program broken_store analyse_argv) heap0 =
    (Raise (ValueError "Invalid bucket name"),
     add_events (add_ticks heap0 1)
       [ELog "Timing task" None; ELog "Creating cluster" None;
        EDeviceMemSize; ECluster demo_client;
        ELog "Creating Parquet dataset" None;
        EGlob "gs://bucket/data/*.parquet"]).
Proof.
  split.
  - apply (proj1 (main_parquet_task_unlisted bucket
                    (parse_args [F_task "transform"]) 10307921510
                    15461882265 heap0 (or_intror eq_refl)
                    (ex_intro _ _ (conj eq_refl eq_refl))
                    (ex_intro _ _ (conj eq_refl eq_refl)))).
    reflexivity.
  - apply (proj2 (main_parquet_task_unlisted broken_store
                    (parse_args analyse_argv) 10307921510 15461882265 heap0
                    (or_introl eq_refl)
                    (ex_intro _ _ (conj eq_refl eq_refl))
                    (ex_intro _ _ (conj eq_refl eq_refl)))
             "gs://bucket/data" (ValueError "Invalid bucket name")).
    + reflexivity.
    + reflexivity.
Defined.

Lemma os_path_join_gs i :
  os_path_join "gs://" i = if startswith_sep i then i else "gs://" +:+ i.
Proof. unfold os_path_join. by destruct (startswith_sep i). Qed.

(** The files of a Parquet dataset are the entries of the listing, as
    many and in the same order, each behind ["gs://"], except that an
    entry that starts with a slash is taken as it is, without the
    prefix. *)
Theorem create_parquet_dataset_names w client p frac h listing d h' :
  glob w (os_path_join p "*.parquet") = Ok listing ->
  run (create_parquet_dataset w client (Some p) frac) h = (Ok d, h') ->
  length (ds_path_or_source d) = length listing /\
  forall (k : nat) (i : string),
    listing !! k = Some i ->
    ds_path_or_source d !! k =
    Some (if startswith_sep i then i else "gs://" +:+ i).
Proof.
  intros Hg Hrun. destruct listing as [|f fs].
  - unfold run in Hrun.
    rewrite (create_parquet_dataset_empty w client p frac tt h Hg) in Hrun.
    discriminate.
  - unfold run in Hrun.
    rewrite (create_parquet_dataset_listing w client p frac tt h f fs Hg)
      in Hrun.
    injection Hrun as <- _. unfold parquet_handle.
    cbv [ds_path_or_source].
    split; [apply length_map|].
    intros k i Hk.
    change (map (fun i => os_path_join "gs://" i) (f :: fs))
      with ((fun i => os_path_join "gs://" i) <$> (f :: fs)).
    rewrite list_lookup_fmap, Hk. simpl. by rewrite os_path_join_gs.
Qed.

(** The second part of the directory on [bucket]. *)
Lemma create_parquet_dataset_names_witness :
  length (ds_path_or_source demo_dataset) = 2%nat /\
  ds_path_or_source demo_dataset !! 1%nat =
    Some "gs://bucket/data/part_1.parquet".
Proof.
  destruct (create_parquet_dataset_names bucket demo_client
              "gs://bucket/data" (float_lit 10 100) heap0
              ["bucket/data/part_0.parquet"; "bucket/data/part_1.parquet"]
              demo_dataset
              (add_events heap0
                 [EGlob "gs://bucket/data/*.parquet"; EDataset demo_dataset])
              eq_refl eq_refl) as [Hl Hk].
  split; [exact Hl|].
  apply (Hk 1%nat "bucket/data/part_1.parquet" eq_refl).
Defined.

(** ** From the analyse task to the transform task *)

(** A transform run whose [--workflow_path] is the [--output_path] of
    an earlier analyse run transforms with the workflow that run created
    and fitted: the Criteo column groups, the statistics of the files
    the analyse run read, bound to the new client. *)
Theorem analyse_then_transform w args_a args_t a b a' b' p f fs p' f' fs'
    out h :
  fraction_of_device w (Namespace.device_limit_frac args_a) a ->
  fraction_of_device w (Namespace.device_pool_frac args_a) b ->
  Namespace.parquet_data_path args_a = Some p ->
  glob w (os_path_join p "*.parquet") = Ok (f :: fs) ->
  Namespace.output_path args_a = Some out ->
  fraction_of_device w (Namespace.device_limit_frac args_t) a' ->
  fraction_of_device w (Namespace.device_pool_frac args_t) b' ->
  Namespace.parquet_data_path args_t = Some p' ->
  glob w (os_path_join p' "*.parquet") = Ok (f' :: fs') ->
  Namespace.workflow_path args_t = Some out ->
  let client_t := cluster_client args_t a' b' in
  exists h1 h2 used,
    run (main_analyse w args_a) h = (Ok tt, h1) /\
    run (main_transform w args_t) h1 = (Ok tt, h2) /\
    In (ETransform used
          (parquet_handle (f' :: fs') (Namespace.frac_size args_t) client_t))
       (trace h2) /\
    wf_features used =
      wf_features (create_criteo_nvt_workflow client_t) /\
    wf_fitted_on used = Some (map (os_path_join "gs://") (f :: fs)) /\
    wf_client used = client_t.
Proof.
  intros Ha Hb Hp Hg Ho Ha' Hb' Hp' Hg' Hw client_t.
  pose proof (main_analyse_run w args_a a b p f fs out h Ha Hb Hp Hg Ho)
    as H1.
  cbv zeta in H1.
  set (fitted := Workflow_fit _ _) in H1.
  set (h1 := add_workflow _ out fitted) in H1.
  assert (Hs : wf_store h1 !! out = Some fitted)
    by (simpl; apply lookup_insert_eq).
  pose proof (main_transform_run w args_t a' b' p' f' fs' out fitted h1
                Ha' Hb' Hp' Hg' Hw Hs) as H2.
  cbv zeta in H2.
  eexists h1, _, (rebind fitted client_t).
  split; [exact H1|]. split; [exact H2|].
  split; [apply In_add_events; simpl; auto 20|].
  split; [reflexivity|]. split; reflexivity.
Qed.

(** The analyse and the transform command lines on [bucket]. *)
Lemma analyse_then_transform_witness :
  exists h1 h2 used,
    run (main_analyse bucket (parse_args analyse_argv)) heap0 = (Ok tt, h1) /\
    run (main_transform bucket (parse_args transform_argv)) h1 =
      (Ok tt, h2) /\
    In (ETransform used demo_dataset) (trace h2) /\
    wf_features used = wf_features (create_criteo_nvt_workflow demo_client) /\
    wf_fitted_on used =
      Some ["gs://bucket/data/part_0.parquet";
            "gs://bucket/data/part_1.parquet"] /\
    wf_client used = demo_client.
Proof.
  apply (analyse_then_transform bucket (parse_args analyse_argv)
           (parse_args transform_argv) 10307921510 15461882265 10307921510
           15461882265 "gs://bucket/data" "bucket/data/part_0.parquet"
           ["bucket/data/part_1.parquet"] "gs://bucket/data"
           "bucket/data/part_0.parquet" ["bucket/data/part_1.parquet"]
           "gs://bucket/workflow" heap0
           (ex_intro _ _ (conj eq_refl eq_refl))
           (ex_intro _ _ (conj eq_refl eq_refl)) eq_refl eq_refl eq_refl
           (ex_intro _ _ (conj eq_refl eq_refl))
           (ex_intro _ _ (conj eq_refl eq_refl)) eq_refl eq_refl eq_refl).
Defined.

(** ** What a task can do *)

Section Confined.

Context (R : relation (gmap string Workflow)) `{!PreOrder R}.
Variable ok : Event -> bool.

Lemma within_refl h : within R ok h h.
Proof.
  split; [reflexivity|]. split; [reflexivity|].
  exists []. by rewrite app_nil_r.
Qed.

Lemma within_trans h1 h2 h3 :
  within R ok h1 h2 -> within R ok h2 h3 -> within R ok h1 h3.
Proof.
  intros [T1 [S1 [e1 [E1 F1]]]] [T2 [S2 [e2 [E2 F2]]]].
  split; [congruence|]. split; [by transitivity (wf_store h2)|].
  exists (e1 ++ e2)%list. split.
  - by rewrite E2, E1, <- app_assoc.
  - rewrite forallb_app. by rewrite F1, F2.
Qed.

Lemma within_add_events h evs :
  forallb ok evs = true -> within R ok h (add_events h evs).
Proof.
  intros F. split; [reflexivity|]. split; [reflexivity|]. by exists evs.
Qed.

Lemma confined_ret {L A} (a : A) : confined (L := L) R ok (ret a).
Proof. intros l h. apply within_refl. Qed.

Lemma confined_raise {L A} e : confined (L := L) (A := A) R ok (raise e).
Proof. intros l h. apply within_refl. Qed.

Lemma confined_lift {L A} (r : result A) : confined (L := L) R ok (lift r).
Proof. destruct r; [apply confined_ret|apply confined_raise]. Qed.

Lemma confined_get_local {L} : confined (L := L) R ok get_local.
Proof. intros l h. apply within_refl. Qed.

Lemma confined_set_local {L} (l' : L) : confined R ok (set_local l').
Proof. intros l h. apply within_refl. Qed.

Lemma confined_emit {L} ev : ok ev = true -> confined (L := L) R ok (emit ev).
Proof.
  intros Hev l h. apply within_add_events. simpl. by rewrite Hev.
Qed.

Lemma confined_bind {L A B} (c : Proc L A) (k : A -> Proc L B) :
  confined R ok c -> (forall a, confined R ok (k a)) ->
  confined R ok (bind c k).
Proof.
  intros Hc Hk l h. unfold bind. specialize (Hc l h).
  destruct (c l h) as [[[a|e] l'] h']; simpl in *; [|exact Hc].
  apply within_trans with h'; [exact Hc|apply Hk].
Qed.

Lemma confined_try {L A} (body : Proc L A) handler :
  confined R ok body ->
  (forall e k, handler e = Some k -> confined R ok k) ->
  confined R ok (try_except body handler).
Proof.
  intros Hb Hh l h. unfold try_except. specialize (Hb l h).
  destruct (body l h) as [[[a|e] l'] h']; simpl in *; [exact Hb|].
  destruct (handler e) as [k|] eqn:Hk; [|exact Hb].
  apply within_trans with h'; [exact Hb|apply (Hh e k Hk)].
Qed.

Lemma confined_call {L L' A} (f : Proc L' A) (frame : L') :
  confined R ok f -> confined (L := L) R ok (call f frame).
Proof.
  intros Hf l h. unfold call. specialize (Hf frame h).
  by destruct (f frame h) as [[r l'] h'].
Qed.

Lemma confined_for {L X Res} (xs : list X) (body : X -> Proc L (Ctl Res)) :
  (forall x, confined R ok (body x)) -> confined R ok (for_ xs body).
Proof.
  intros Hb. induction xs as [|x xs IH]; simpl.
  - apply confined_ret.
  - apply confined_bind; [apply Hb|].
    intros [|r]; [exact IH|apply confined_ret].
Qed.

End Confined.

(** Break a procedure down along its combinators. *)
Ltac confine_step R ok :=
  first
    [ apply (confined_ret R ok) | apply (confined_raise R ok)
    | apply (confined_lift R ok)
    | apply (confined_get_local R ok) | apply (confined_set_local R ok)
    | apply (confined_emit R ok); first [reflexivity|auto]
    | apply (confined_call R ok)
    | apply (confined_for R ok); intros ?
    | apply (confined_bind R ok); [|intros ?]
    | apply (confined_try R ok);
      [|let e := fresh "e" in let k := fresh "k" in let H := fresh "H" in
        intros e k H; try destruct e; simpl in H; try discriminate H;
        injection H as <-]
    | match goal with
      | |- confined _ _ (match ?x with _ => _ end) => destruct x
      end ].

Ltac confine :=
  cbv [fs_glob fs_isfile logging_info print nvt_Dataset getattr_Shuffle
       to_parquet valid_paths_append];
  repeat match goal with
         | |- confined ?R ?ok _ => confine_step R ok
         end.

Lemma create_cluster_confined R `{!PreOrder R} ok w nw dlf dpf ml :
  ok EDeviceMemSize = true -> (forall c, ok (ECluster c) = true) ->
  confined R ok (create_cluster w nw dlf dpf ml).
Proof.
  intros H1 H2 l h. rewrite create_cluster_unfold.
  destruct (device_fractions w dlf dpf) as [[a b]|e]; simpl;
    apply within_add_events; try assumption; simpl;
    by rewrite ?H1, ?H2.
Qed.

Lemma create_csv_dataset_confined w paths sep recursive dt frac client :
  confined eq convert_event
    (create_csv_dataset w paths sep recursive dt frac client).
Proof. unfold create_csv_dataset, resolve_path. confine. Qed.

Lemma convert_csv_to_parquet_confined w out d files shuffle :
  confined eq convert_event (convert_csv_to_parquet w out d files shuffle).
Proof. unfold convert_csv_to_parquet. confine. Qed.

Lemma main_convert_confined w args :
  confined eq convert_event (main_convert w args).
Proof.
  unfold main_convert.
  apply (confined_bind eq convert_event); [confine|intros _].
  apply (confined_bind eq convert_event);
    [by apply (create_cluster_confined eq convert_event)|intros client].
  apply (confined_bind eq convert_event); [confine|intros _].
  apply (confined_bind eq convert_event);
    [apply create_csv_dataset_confined|intros dataset].
  apply (confined_bind eq convert_event); [confine|intros _].
  apply convert_csv_to_parquet_confined.
Qed.

#[local] Instance overwritten_at_preorder path : PreOrder (overwritten_at path).
Proof.
  split.
  - intros s. by left.
  - intros s1 s2 s3 [->|[p [wf [Hp ->]]]] [->|[p' [wf' [Hp' ->]]]].
    + by left.
    + right. by exists p', wf'.
    + right. by exists p, wf.
    + right. exists p', wf'. split; [assumption|].
      assert (p = p') as -> by congruence. by rewrite insert_insert_eq.
Qed.


Lemma create_parquet_dataset_confined R `{!PreOrder R} ok w client p frac :
  (forall g, ok (EGlob g) = true) -> (forall d, ok (EDataset d) = true) ->
  confined R ok (create_parquet_dataset w client p frac).
Proof. intros Hg Hd. unfold create_parquet_dataset. confine. Qed.

Lemma load_workflow_confined R `{!PreOrder R} ok path client :
  (forall p, ok (ELoadWorkflow p) = true) ->
  confined R ok (load_workflow path client).
Proof.
  intros Hl. unfold load_workflow.
  apply (confined_bind R ok); [confine|intros _].
  destruct path as [p|]; [|confine].
  intros l h. destruct (wf_store h !! p); apply (within_refl R ok).
Qed.

Lemma save_workflow_confined ok workflow path :
  (forall wf p, ok (ESaveWorkflow wf p) = true) ->
  confined (overwritten_at path) ok (save_workflow workflow path).
Proof.
  intros Hs. unfold save_workflow.
  apply (confined_bind _ ok); [confine|intros _].
  destruct path as [p|]; [|confine].
  intros l h. split; [reflexivity|]. split.
  - right. by exists p, workflow.
  - exists []. simpl. by rewrite app_nil_r.
Qed.

Lemma save_dataset_confined w d out shuffle :
  confined eq transform_event (save_dataset w d out shuffle).
Proof. unfold save_dataset. confine. Qed.

Lemma main_analyse_confined w args :
  confined (overwritten_at (Namespace.output_path args)) analyse_event
    (main_analyse w args).
Proof.
  set (R := overwritten_at (Namespace.output_path args)).
  unfold main_analyse.
  apply (confined_bind R analyse_event); [confine|intros _].
  apply (confined_bind R analyse_event);
    [by apply (create_cluster_confined R analyse_event)|intros client].
  apply (confined_bind R analyse_event); [confine|intros _].
  apply (confined_bind R analyse_event);
    [by apply (create_parquet_dataset_confined R analyse_event)
    |intros dataset].
  apply (confined_bind R analyse_event); [confine|intros _].
  apply (confined_bind R analyse_event); [confine|intros _].
  apply (confined_bind R analyse_event);
    [unfold analyze_dataset; confine|intros workflow].
  apply (confined_bind R analyse_event); [confine|intros _].
  by apply save_workflow_confined.
Qed.

Lemma main_transform_confined w args :
  confined eq transform_event (main_transform w args).
Proof.
  unfold main_transform.
  apply (confined_bind eq transform_event); [confine|intros _].
  apply (confined_bind eq transform_event);
    [by apply (create_cluster_confined eq transform_event)|intros client].
  apply (confined_bind eq transform_event); [confine|intros _].
  apply (confined_bind eq transform_event);
    [by apply (create_parquet_dataset_confined eq transform_event)
    |intros dataset].
  apply (confined_bind eq transform_event); [confine|intros _].
  apply (confined_bind eq transform_event);
    [by apply (load_workflow_confined eq transform_event)|intros workflow].
  apply (confined_bind eq transform_event); [confine|intros _].
  apply (confined_bind eq transform_event);
    [unfold transform_dataset, nvt_transform; confine|intros transformed].
  apply (confined_bind eq transform_event); [confine|intros _].
  apply save_dataset_confined.
Qed.

Lemma snd_run {A} (c : Proc unit A) h : snd (run c h) = snd (c tt h).
Proof. unfold run. by destruct (c tt h) as [[r []] h']. Qed.

(** However the convert task ends, on whatever store and arguments: it
    does not read the clock, leaves the persisted workflows as they
    are, and only adds events to the trace, none of which fits,
    applies, saves or loads a workflow or logs an elapsed time. *)
Theorem main_convert_footprint w args h :
  let h' := snd (run (main_convert w args) h) in
  ticks h' = ticks h /\ wf_store h' = wf_store h /\
  exists evs,
    trace h' = (trace h ++ evs)%list /\
    forallb convert_event evs = true /\
    forallb (fun e => negb (is_workflow_event e || is_elapsed_log e)) evs
      = true.
Proof.
  simpl. rewrite snd_run.
  destruct (main_convert_confined w args tt h) as [T [S [evs [E F]]]].
  split; [assumption|]. split; [by symmetry|].
  exists evs. split; [assumption|]. split; [assumption|].
  apply forallb_forall. intros e He.
  pose proof (proj1 (forallb_forall _ _) F e He) as Hc.
  by destruct e as [? []| | | | | | | | | | |].
Qed.

(** However the analyse task ends: it does not read the clock, and only
    adds events to the trace, none of which writes a dataset, prints,
    tests a single path, or loads or applies a workflow; the persisted
    workflows are unchanged or changed at [--output_path] only. *)
Theorem main_analyse_footprint w args h :
  let h' := snd (run (main_analyse w args) h) in
  ticks h' = ticks h /\
  overwritten_at (Namespace.output_path args) (wf_store h) (wf_store h') /\
  exists evs,
    trace h' = (trace h ++ evs)%list /\
    forallb analyse_event evs = true /\
    forallb (fun e => negb (is_write e)) evs = true.
Proof.
  simpl. rewrite snd_run.
  destruct (main_analyse_confined w args tt h) as [T [S [evs [E F]]]].
  split; [assumption|]. split; [assumption|].
  exists evs. split; [assumption|]. split; [assumption|].
  apply forallb_forall. intros e He.
  pose proof (proj1 (forallb_forall _ _) F e He) as Hc.
  by destruct e.
Qed.

(** However the transform task ends: it does not read the clock,
    leaves the persisted workflows as they are, and only adds events to
    the trace, none of which fits or saves a workflow or tests a single
    path. *)
Theorem main_transform_footprint w args h :
  let h' := snd (run (main_transform w args) h) in
  ticks h' = ticks h /\ wf_store h' = wf_store h /\
  exists evs,
    trace h' = (trace h ++ evs)%list /\
    forallb transform_event evs = true.
Proof.
  simpl. rewrite snd_run.
  destruct (main_transform_confined w args tt h) as [T [S [evs [E F]]]].
  split; [assumption|]. split; [by symmetry|]. by exists evs.
Qed.

(** ** The program *)


Lemma main_unfold w args h :
  run (main w args) h =
  match dispatch w args tt
          (add_events (add_ticks h 1) [ELog "Timing task" None]) with
  | (Ok _, _, h1) =>
      (Ok tt,
       add_events (add_ticks h1 1)
         [ELog "Task completed. Elapsed time: %s"
            (Some (fsub (clock w (ticks h1)) (clock w (ticks h))))])
  | (Raise e, _, h1) => (Raise e, h1)
  end.
Proof.
  unfold run, main, time_time, dispatch. proc.
  change {| trace := trace h; wf_store := wf_store h;
            ticks := S (ticks h) |} with (add_ticks h 1).
  destruct (decide _);
    [|destruct (decide _); [|destruct (decide _); [|reflexivity]]];
    match goal with
    | |- context [?f w args tt ?hh] =>
        by destruct (f w args tt hh) as [[[[]|?] []] ?]
    end.
Qed.


(** A command line without [--task]: whatever else it holds, no task
    runs; the program logs the two records and ends normally. *)
Theorem program_without_task w argv h :
  omitted "task" argv ->
  run (program w argv) h =
  (Ok tt,
   add_events (add_ticks (add_events (add_ticks h 1)
                            [ELog "Timing task" None]) 1)
     [ELog "Task completed. Elapsed time: %s"
        (Some (fsub (clock w (S (ticks h))) (clock w (ticks h))))]).
Proof.
  intros Ho. unfold program. rewrite main_unfold. unfold dispatch.
  assert (Ht : Namespace.task (parse_args argv) = None).
  { unfold parse_args.
    rewrite (fold_store_keep Namespace.task "task"); [done| |done].
    store_keeps. }
  rewrite Ht. reflexivity.
Qed.

(** Every flag of a task given, the task name left out. *)
Lemma program_without_task_witness :
  run (program bucket
         [F_parquet_data_path "gs://bucket/data";
          F_output_path "gs://bucket/workflow"; F_n_workers 4]) heap0 =
  (Ok tt,
   add_events (add_ticks (add_events (add_ticks heap0 1)
                            [ELog "Timing task" None]) 1)
     [ELog "Task completed. Elapsed time: %s"
        (Some (fsub (clock bucket 1) (clock bucket 0)))]).
Proof.
  apply (program_without_task bucket
           [F_parquet_data_path "gs://bucket/data";
            F_output_path "gs://bucket/workflow"; F_n_workers 4] heap0).
  repeat constructor; discriminate.
Defined.

(** ** Argument parsing, once more *)

(** Two adjacent flags with different destinations can be swapped on the
    command line without changing the parsed arguments. *)
Theorem parse_args_swap pre f g post :
  dest f <> dest g ->
  parse_args (pre ++ f :: g :: post) = parse_args (pre ++ g :: f :: post).
Proof.
  intros Hd. unfold parse_args. rewrite !fold_left_app. simpl.
  f_equal. destruct (fold_left store pre defaults), f, g; simpl in *;
    first [reflexivity|congruence].
Qed.

(** [--n_workers] before or after [--task]. *)
Lemma parse_args_swap_witness :
  parse_args ([F_sep ","] ++ F_task "convert" :: F_n_workers 2 :: []) =
  parse_args ([F_sep ","] ++ F_n_workers 2 :: F_task "convert" :: []).
Proof.
  apply (parse_args_swap [F_sep ","] (F_task "convert") (F_n_workers 2) []).
  discriminate.
Defined.

(** The eight flags without a default are [None] in the parsed
    arguments when they are left out, so that a task that needs one
    receives Python's [None]. *)
Theorem parse_args_optional argv :
  (omitted "task" argv -> Namespace.task (parse_args argv) = None) /\
  (omitted "csv_data_path" argv ->
     Namespace.csv_data_path (parse_args argv) = None) /\
  (omitted "parquet_data_path" argv ->
     Namespace.parquet_data_path (parse_args argv) = None) /\
  (omitted "output_path" argv ->
     Namespace.output_path (parse_args argv) = None) /\
  (omitted "output_files" argv ->
     Namespace.output_files (parse_args argv) = None) /\
  (omitted "workflow_path" argv ->
     Namespace.workflow_path (parse_args argv) = None) /\
  (omitted "n_workers" argv ->
     Namespace.n_workers (parse_args argv) = None) /\
  (omitted "sep" argv -> Namespace.sep (parse_args argv) = None).
Proof.
  unfold parse_args. repeat split; intros H.
  - rewrite (fold_store_keep Namespace.task "task"); [done| |done].
    store_keeps.
  - rewrite (fold_store_keep Namespace.csv_data_path "csv_data_path");
      [done| |done].
    store_keeps.
  - rewrite (fold_store_keep Namespace.parquet_data_path
               "parquet_data_path"); [done| |done].
    store_keeps.
  - rewrite (fold_store_keep Namespace.output_path "output_path");
      [done| |done].
    store_keeps.
  - rewrite (fold_store_keep Namespace.output_files "output_files");
      [done| |done].
    store_keeps.
  - rewrite (fold_store_keep Namespace.workflow_path "workflow_path");
      [done| |done].
    store_keeps.
  - rewrite (fold_store_keep Namespace.n_workers "n_workers");
      [done| |done].
    store_keeps.
  - rewrite (fold_store_keep Namespace.sep "sep"); [done| |done].
    store_keeps.
Qed.

(** The analyse command line gives no [--workflow_path]. *)
Lemma parse_args_optional_witness :
  Namespace.workflow_path (parse_args analyse_argv) = None.
Proof.
  apply (proj1 (proj2 (proj2 (proj2 (proj2 (proj2
           (parse_args_optional analyse_argv))))))).
  repeat constructor; discriminate.
Defined.

(** ** The schema and the workflow together *)

(** The columns the workflow selects are the columns of the schema, each
    once: the columns sent through [Categorify] are those read as
    ['hex'], the columns sent through [FillMissing], [Clip] and
    [Normalize] are read as int32, and the one column left as it is,
    ['label'], is read as int32. *)
Theorem workflow_columns_match_schema client :
  let groups := wf_features (create_criteo_nvt_workflow client) in
  concat (map cg_columns groups) ≡ₚ keys get_criteo_col_dtypes /\
  forall g c, In g groups -> In c (cg_columns g) ->
    match dict_get get_criteo_col_dtypes c with
    | Some hex => cg_ops g = [Categorify 10000000]
    | Some np_int32 =>
        cg_ops g = [FillMissing; Clip 0; Normalize] \/
        c = "label" /\ cg_ops g = []
    | None => False
    end.
Proof.
  cbv zeta. split.
  - rewrite get_criteo_col_dtypes_keys.
    set (Is := map (fun i => "I" +:+ str i) (range 1 14)).
    set (Cs := map (fun i => "C" +:+ str i) (range 1 27)).
    change (concat _) with (Cs ++ (Is ++ ["label"]))%list.
    rewrite (Permutation_app_comm Cs).
    rewrite <- (Permutation_cons_append Is "label"). reflexivity.
  - intros g c Hg Hc. simpl in Hg.
    destruct Hg as [<-|[<-|[<-|[]]]]; simpl in Hc;
      repeat (destruct Hc as [<-|Hc]; [vm_compute; auto|]);
      destruct Hc.
Qed.

(** ** The BigQuery export *)

Lemma append_assoc_sep a b : (a +:+ "/") +:+ b = a +:+ "/" +:+ b.
Proof.
  induction a as [|c a IH]; [reflexivity|].
  change (String c ((a +:+ "/") +:+ b) = String c (a +:+ "/" +:+ b)).
  by f_equal.
Qed.

Lemma endswith_sep_append a : endswith_sep (a +:+ "/") = true.
Proof.
  induction a as [|c a IH]; [reflexivity|].
  simpl. destruct (a +:+ "/") eqn:E; [by destruct a|exact IH].
Qed.

(** [extract_table_from_bq] asks for one export, in Parquet, and waits
    for it.  Its destination pattern lies in the directory that
    [create_parquet_dataset] lists for the same path: the two patterns
    are one directory prefix, empty or ending in a slash, followed by
    ['criteo-*.parquet'] and by ['*.parquet']. *)
Theorem extract_table_from_bq_destination output_dir dataset_ref table_id
    location :
  exists prefix,
    extract_table_from_bq output_dir dataset_ref table_id location =
      [BqExtractTable
         {| tr_dataset := dataset_ref; tr_table_id := table_id |}
         (prefix +:+ "criteo-*.parquet") location "PARQUET";
       BqJobResult] /\
    os_path_join output_dir "*.parquet" = prefix +:+ "*.parquet" /\
    (prefix = "" \/ endswith_sep prefix = true).
Proof.
  unfold extract_table_from_bq, os_path_join. simpl.
  destruct (String.eqb_spec output_dir "") as [->|Hne]; simpl.
  - exists "". repeat split. by left.
  - destruct (endswith_sep output_dir) eqn:He.
    + exists output_dir. repeat split. by right.
    + exists (output_dir +:+ "/"). rewrite !append_assoc_sep.
      repeat split. right. apply endswith_sep_append.
Qed.


(** Column [C7]: read as ['hex'], sent through [Categorify]. *)
Lemma workflow_columns_match_schema_witness :
  match dict_get get_criteo_col_dtypes "C7" with
  | Some hex =>
      cg_ops (chain (select (map (fun x => "C" +:+ str x) (range 1 27)))
                (Categorify 10000000)) = [Categorify 10000000]
  | Some np_int32 =>
      cg_ops (chain (select (map (fun x => "C" +:+ str x) (range 1 27)))
                (Categorify 10000000)) = [FillMissing; Clip 0; Normalize] \/
      "C7" = "label" /\
      cg_ops (chain (select (map (fun x => "C" +:+ str x) (range 1 27)))
                (Categorify 10000000)) = []
  | None => False
  end.
Proof.
  apply (proj2 (workflow_columns_match_schema demo_client)
           (chain (select (map (fun x => "C" +:+ str x) (range 1 27)))
              (Categorify 10000000)) "C7").
  - left. reflexivity.
  - vm_compute. auto 10.
Defined.
